(** * ai-pdf2docx, phase 2: JSON to DOCX

    A shallow embedding of [phase2_json_to_docx.py]: the Markdown table
    parser [parse_markdown_table] and the assembler
    [create_docx_from_structured_data], together with the Python [str]
    methods they call. *)

From Stdlib Require Import String Ascii.
From Stdlib Require Import List NArith ZArith Arith Bool Lia.
From Stdlib Require Import SpecFloat.
Import ListNotations.

(** ** Python [str]

    A Python [str] is a sequence of Unicode code points; a code point is a
    natural number. *)

Module PyStr.

Local Open Scope N_scope.

Definition char := N.
Definition pystr := list char.

(** A literal of the source, written as a Rocq string of ASCII
    characters. *)
Fixpoint py (s : string) : pystr :=
  match s with
  | EmptyString => []
  | String a rest => N_of_ascii a :: py rest
  end.
Arguments py : simpl never.

Definition LF : char := 10.
Definition CR : char := 13.
Definition SPACE : char := 32.
Definition PIPE : char := 124.

Definition in_range (lo hi c : char) : bool := (lo <=? c) && (c <=? hi).

(** [c.isspace()]: the code points that [str.strip()] removes. *)
Definition isspace (c : char) : bool :=
  in_range 9 13 c || in_range 28 32 c || (c =? 133) || (c =? 160)
  || (c =? 5760) || in_range 8192 8202 c || (c =? 8232)
  || (c =? 8233) || (c =? 8239) || (c =? 8287) || (c =? 12288).

(** [c in chars] for a single character [c]. *)
Definition char_in (chars : pystr) (c : char) : bool :=
  existsb (N.eqb c) chars.

Fixpoint lstrip_by (drop : char -> bool) (s : pystr) : pystr :=
  match s with
  | [] => []
  | c :: rest => if drop c then lstrip_by drop rest else s
  end.

Definition strip_by (drop : char -> bool) (s : pystr) : pystr :=
  rev (lstrip_by drop (rev (lstrip_by drop s))).

(** [s.strip()] *)
Definition strip (s : pystr) : pystr := strip_by isspace s.

(** [s.strip(chars)] *)
Definition strip_chars (chars s : pystr) : pystr := strip_by (char_in chars) s.

(** [s.split(sep)] for a separator of one character: never empty. *)
Fixpoint split (sep : char) (s : pystr) : list pystr :=
  match s with
  | [] => [[]]
  | c :: rest =>
      if (c =? sep) then [] :: split sep rest
      else match split sep rest with
           | [] => [[c]]
           | field :: fields => (c :: field) :: fields
           end
  end.

(** [sep.join(parts)] *)
Fixpoint join (sep : pystr) (parts : list pystr) : pystr :=
  match parts with
  | [] => []
  | [p] => p
  | p :: rest => p ++ sep ++ join sep rest
  end.

(** The line boundaries of [str.splitlines()] other than the pair CR LF. *)
Definition is_linebreak (c : char) : bool :=
  in_range 10 13 c || in_range 28 30 c || (c =? 133) || (c =? 8232)
  || (c =? 8233).

(** [s.splitlines()], with [cur] the line read so far: a boundary ends the
    current line, CR LF counts as one boundary, and no empty line is
    reported after the last boundary. *)
Fixpoint splitlines_from (cur s : pystr) : list pystr :=
  match s with
  | [] => match cur with [] => [] | _ => [cur] end
  | c :: rest =>
      if is_linebreak c then
        match rest with
        | c' :: rest' =>
            if (c =? CR) && (c' =? LF) then cur :: splitlines_from [] rest'
            else cur :: splitlines_from [] rest
        | [] => cur :: splitlines_from [] rest
        end
      else splitlines_from (cur ++ [c]) rest
  end.

Definition splitlines (s : pystr) : list pystr := splitlines_from [] s.

(** [s.startswith(c)] and [s.endswith(c)] for one character. *)
Definition startswith (s : pystr) (c : char) : bool :=
  match s with
  | [] => false
  | c0 :: _ => (c0 =? c)
  end.

Definition endswith (s : pystr) (c : char) : bool := startswith (rev s) c.

(** Truth value of a [str]: non-empty. *)
Definition nonempty {A : Type} (l : list A) : bool :=
  match l with
  | [] => false
  | _ => true
  end.

Definition eqb (s t : pystr) : bool :=
  if list_eq_dec N.eq_dec s t then true else false.

Fixpoint is_prefix (p s : pystr) : bool :=
  match p, s with
  | [], _ => true
  | _, [] => false
  | a :: p', b :: s' => (a =? b) && is_prefix p' s'
  end.

(** [p in s] for two strings. *)
Fixpoint contains (s p : pystr) : bool :=
  is_prefix p s ||
  match s with
  | [] => false
  | _ :: s' => contains s' p
  end.

End PyStr.
Import PyStr.

(** ** The Markdown table parser *)

Module TableParser.

Record loop_state := LoopState
  { table_data : list (list pystr);
    header_parsed : bool;
    num_cols : nat }.

Definition clean_cell (cell_text : pystr) : pystr := strip cell_text.

(** Line 9: the stripped, non-empty lines of the stripped content. *)
Definition lines_of (markdown_table_content : pystr) : list pystr :=
  map strip
    (filter (fun line => nonempty (strip line))
       (split LF (strip markdown_table_content))).

(** Line 17. *)
Definition cells_of (line : pystr) : list pystr :=
  map clean_cell (split PIPE (strip_chars (py "|") line)).

Definition append_row (st : loop_state) (row : list pystr) : loop_state :=
  LoopState (table_data st ++ [row]) (header_parsed st) (num_cols st).

(** Lines 14 to 26: one iteration of the loop on [(i, line)]. *)
Definition loop_body (st : loop_state) (i : nat) (line : pystr) : loop_state :=
  if negb (startswith line PIPE) || negb (endswith line PIPE) then
    if (i =? 1) && forallb (char_in (py "-|: ")) line then st
    else st
  else
    let cells := cells_of line in
    if negb (header_parsed st) then
      LoopState (table_data st ++ [cells]) true (length cells)
    else if length cells =? num_cols st then append_row st cells
    else if (num_cols st <? length cells) && (0 <? num_cols st) then
      append_row st (firstn (num_cols st) cells)
    else if (length cells <? num_cols st) && (0 <? num_cols st) then
      append_row st (cells ++ repeat [] (num_cols st - length cells))
    else if (num_cols st =? 0) && nonempty cells then
      LoopState (table_data st ++ [cells]) (header_parsed st) (length cells)
    else st.

(** [for i, line in enumerate(lines)], counting from [i]. *)
Fixpoint loop (st : loop_state) (i : nat) (lines : list pystr) : loop_state :=
  match lines with
  | [] => st
  | line :: rest => loop (loop_body st i line) (S i) rest
  end.

Definition parse_markdown_table (markdown_table_content : pystr)
  : list (list pystr) :=
  let lines := lines_of markdown_table_content in
  if negb (nonempty lines) then []
  else table_data (loop (LoopState [] false 0) 0 lines).

End TableParser.
Import TableParser.

(** ** Values loaded by [json.loads] *)

Module Json.

(** [None], [bool], [int], [float], [str], [list] and [dict]. A [float] is
    its IEEE 754 value. The keys of a loaded [dict] are distinct strings;
    the fields are kept in order and a lookup takes the first field of that
    key. *)
#[warnings="-register-all"]
Inductive json :=
| JNull
| JBool (b : bool)
| JInt (n : Z)
| JFloat (x : spec_float)
| JStr (s : pystr)
| JArr (items : list json)
| JObj (fields : list (pystr * json)).

Inductive exn :=
| AttributeError
| TypeError
| KeyError
| IndexError
| ValueError
| RecursionError.

(** Outcome of [json.loads(json_content_str)]: the exception that line 37
    catches, the value loaded, or another exception ([RecursionError] on
    deep nesting, [ValueError] on an integer of too many digits). *)
Inductive loads_result :=
| JSONDecodeError
| Loaded (data : json)
| LoadsRaised (e : exn).

Inductive result (A : Type) :=
| Ok (a : A)
| Raise (e : exn).
Arguments Ok {A} a.
Arguments Raise {A} e.

Definition bind {A B : Type} (c : result A) (k : A -> result B) : result B :=
  match c with
  | Ok a => k a
  | Raise e => Raise e
  end.

(** Truth value of a loaded value, as tested by [if v:]. *)
Definition truthy (v : json) : bool :=
  match v with
  | JNull => false
  | JBool b => b
  | JInt n => negb (n =? 0)%Z
  | JFloat x => match x with S754_zero _ => false | _ => true end
  | JStr s => nonempty s
  | JArr items => nonempty items
  | JObj fields => nonempty fields
  end.

(** [v == literal] for a [str] literal. *)
Definition eq_str (v : json) (literal : pystr) : bool :=
  match v with
  | JStr s => PyStr.eqb s literal
  | _ => false
  end.

Fixpoint lookup (key : pystr) (fields : list (pystr * json)) : option json :=
  match fields with
  | [] => None
  | (k, v) :: rest => if PyStr.eqb k key then Some v else lookup key rest
  end.

(** [v.get(key, default)]: only a [dict] has the method. *)
Definition get (v : json) (key : pystr) (default : json) : result json :=
  match v with
  | JObj fields =>
      Ok (match lookup key fields with
          | Some x => x
          | None => default
          end)
  | _ => Raise AttributeError
  end.

(** [key in v] for a [str] key: membership in a [dict] or a [list],
    substring of a [str], [TypeError] on the other values. *)
Definition contains_key (key : pystr) (v : json) : result bool :=
  match v with
  | JObj fields => Ok (match lookup key fields with Some _ => true | None => false end)
  | JArr items => Ok (existsb (fun x => eq_str x key) items)
  | JStr s => Ok (PyStr.contains s key)
  | _ => Raise TypeError
  end.

(** [v[key]] for a [str] key. *)
Definition getitem (v : json) (key : pystr) : result json :=
  match v with
  | JObj fields =>
      match lookup key fields with
      | Some x => Ok x
      | None => Raise KeyError
      end
  | _ => Raise TypeError
  end.

(** [isinstance(v, list)] *)
Definition is_list (v : json) : bool :=
  match v with
  | JArr _ => true
  | _ => false
  end.

End Json.
Import Json.

Declare Scope result_scope.
Delimit Scope result_scope with result.
Notation "x <- c ;; k" := (bind c (fun x => k))
  (at level 61, c at next level, right associativity) : result_scope.

(** ** The document under construction

    python-docx is a library, not part of the repository: a document is the
    sequence of blocks the program adds, each recording the arguments the
    program hands over. A text reaches the XML tree through lxml, which
    refuses some characters, and a text that is not a [str] is iterated as
    python-docx iterates a [str]; both can raise. *)

Module Docx.

Inductive style := Heading1 | Heading2 | Heading3 | Normal.

(** A cell after [cell.text = ...]; [bold] is the font of its first run. *)
Record cell := Cell { cell_text : pystr; bold : bool }.

(** [Paragraph] records the value handed to [doc.add_paragraph]; a table is
    always given the style 'Table Grid' right after it is added. *)
Inductive block :=
| Paragraph (text : json) (st : style)
| Table (cols : nat) (rows : list (list cell)).

Definition document := list block.

(** What the program writes with [print]. *)
Inductive message :=
| MsgKeyNotFound
| MsgDecodeError
| MsgTableError
| MsgCreated
| MsgSaveError.

(** [doc] together with the standard output. *)
Record world := World { body : document; printed : list message }.

Definition add_block (w : world) (b : block) : world :=
  World (body w ++ [b]) (printed w).

Definition print (w : world) (m : message) : world :=
  World (body w) (printed w ++ [m]).

(** A character lxml accepts in a text: no control character below U+0020
    but tab, line feed and carriage return, no surrogate (which fails the
    encoding, a [ValueError] as well), neither U+FFFE nor U+FFFF. *)
Definition xml_char (c : char) : bool :=
  ((32 <=? c)%N || (c =? 9)%N || (c =? 10)%N || (c =? 13)%N)
  && negb (in_range 55296%N 57343%N c)
  && negb (c =? 65534)%N && negb (c =? 65535)%N.

(** A [str] python-docx can write: otherwise the write raises
    [ValueError]. *)
Definition xml_compatible (s : pystr) : bool := forallb xml_char s.

(** What [run.text = text] raises on the items of a [list], or the keys of
    a [dict]: an item that is not a [str] fails the test [char in "\r\n"];
    a tab or a piece of ["\r\n"] writes out what was gathered so far, as
    the end does; [dirty] tells that what was gathered cannot be written. *)
Fixpoint items_exception (items : list json) (dirty : bool) : option exn :=
  match items with
  | [] => if dirty then Some ValueError else None
  | JStr x :: rest =>
      if PyStr.eqb x [9%N] || PyStr.contains [CR; LF] x then
        if dirty then Some ValueError else items_exception rest false
      else items_exception rest (dirty || negb (xml_compatible x))
  | _ :: _ => Some TypeError
  end.

(** What [run.text = text] raises, if anything: a [str] must be writable,
    a number, a boolean or [None] cannot be iterated. *)
Definition text_exception (text : json) : option exn :=
  match text with
  | JStr s => if xml_compatible s then None else Some ValueError
  | JArr items => items_exception items false
  | JObj fields => items_exception (map (fun kv => JStr (fst kv)) fields) false
  | _ => Some TypeError
  end.

(** [doc.add_paragraph(text, style=st)]: the run is only added for a text
    that is true. *)
Definition add_paragraph (w : world) (text : json) (st : style)
  : result world :=
  if truthy text then
    match text_exception text with
    | Some e => Raise e
    | None => Ok (add_block w (Paragraph text st))
    end
  else Ok (add_block w (Paragraph text st)).

(** [table.add_row().cells] of a table of [cols] columns. *)
Definition new_row (cols : nat) : list cell := repeat (Cell [] false) cols.

(** [cells[i].text = t] with the run's font set to [b]: [IndexError] when
    [i] is out of range, [ValueError] when [t] cannot be written. *)
Fixpoint set_text (cells : list cell) (i : nat) (t : pystr) (b : bool)
  : result (list cell) :=
  match cells, i with
  | [], _ => Raise IndexError
  | _ :: rest, O =>
      if xml_compatible t then Ok (Cell t b :: rest) else Raise ValueError
  | c :: rest, S i' =>
      match set_text rest i' t b with
      | Ok rest' => Ok (c :: rest')
      | Raise e => Raise e
      end
  end.

End Docx.
Import Docx.

(** ** The assembler *)

Module Assembler.

Local Open Scope result_scope.

(** What a call leaves behind: the value returned, the standard output
    and the file written, if any. *)
Record run := Run
  { returned : bool;
    stdout : list message;
    saved : option document }.

Inductive outcome :=
| Finished (r : run)
| Uncaught (e : exn).

(** Line 34, negated: [False] is the branch that prints and returns
    [False]; the test itself can raise. *)
Definition has_elements_list (data : json) : result bool :=
  present <- contains_key (py "document_elements") data ;;
  if negb present then Ok false
  else
    elements <- getitem data (py "document_elements") ;;
    Ok (is_list elements).

Section Runtime.

(** [str(v)] of a loaded value that is not a [str], as an f-string field
    formats it: Python's built-in conversion. *)
Variable str_of_value : json -> pystr.

(** Whether [doc.save(output_docx_path)] returns without an exception. *)
Variable save_succeeds : document -> bool.

(** A replacement field [{v}] of an f-string. *)
Definition format_field (v : json) : pystr :=
  match v with
  | JStr s => s
  | _ => str_of_value v
  end.

(** Lines 72 to 76, from index [i]. *)
Fixpoint fill_header (num_cols i : nat) (texts : list pystr)
  (hdr_cells : list cell) : list cell * option exn :=
  match texts with
  | [] => (hdr_cells, None)
  | header_text :: rest =>
      if i <? num_cols then
        match set_text hdr_cells i header_text true with
        | Ok cells' => fill_header num_cols (S i) rest cells'
        | Raise e => (hdr_cells, Some e)
        end
      else fill_header num_cols (S i) rest hdr_cells
  end.

(** Lines 81 and 82, from index [i]. *)
Fixpoint fill_row (i : nat) (texts : list pystr) (row_cells : list cell)
  : list cell * option exn :=
  match texts with
  | [] => (row_cells, None)
  | cell_text :: rest =>
      match set_text row_cells i cell_text false with
      | Ok cells' => fill_row (S i) rest cells'
      | Raise e => (row_cells, Some e)
      end
  end.

(** Lines 78 to 82: the rows of the table so far, and the exception that
    stopped the loop, if any. *)
Fixpoint add_data_rows (num_cols : nat) (rows_data : list (list pystr))
  (rows : list (list cell)) : list (list cell) * option exn :=
  match rows_data with
  | [] => (rows, None)
  | row_data :: rest =>
      if length row_data =? num_cols then
        match fill_row 0 row_data (new_row num_cols) with
        | (row_cells, None) => add_data_rows num_cols rest (rows ++ [row_cells])
        | (row_cells, Some e) => (rows ++ [row_cells], Some e)
        end
      else add_data_rows num_cols rest rows
  end.

(** The body of the [try], lines 68 to 82. *)
Definition build_table (num_cols : nat) (table_data : list (list pystr))
  : list (list cell) * option exn :=
  match fill_header num_cols 0 (hd [] table_data) (new_row num_cols) with
  | (hdr_cells, None) => add_data_rows num_cols (tl table_data) [hdr_cells]
  | (hdr_cells, Some e) => ([hdr_cells], Some e)
  end.

(** Lines 58 to 89 for a [str] content: the fallback paragraph is added
    inside the handler, so what it raises leaves the function; the line
    printed before is not kept with the exception. *)
Definition render_table (w : world) (content : pystr) : result world :=
  if nonempty content && nonempty (strip content) then
    let table_data := parse_markdown_table content in
    if nonempty table_data && nonempty (hd [] table_data)
       && (0 <? length (hd [] table_data)) then
      let num_cols := length (hd [] table_data) in
      match build_table num_cols table_data with
      | (rows, None) => Ok (add_block w (Table num_cols rows))
      | (rows, Some _) =>
          add_paragraph
            (print (add_block w (Table num_cols rows)) MsgTableError)
            (JStr (py "[Fallback: Error rendering table. Raw Markdown:]"
                     ++ [LF] ++ content))
            Normal
      end
    else Ok w
  else Ok w.

(** Lines 44 to 93: the body of the loop over the elements. A content that
    is not a [str] has no [splitlines] and no [strip]. *)
Definition render_element (w : world) (element : json) : result world :=
  el_type <- get element (py "type") JNull ;;
  content <- get element (py "content") (JStr []) ;;
  if eq_str el_type (py "heading_1") then
    add_paragraph w content Heading1
  else if eq_str el_type (py "heading_2") then
    add_paragraph w content Heading2
  else if eq_str el_type (py "heading_3") then
    add_paragraph w content Heading3
  else if eq_str el_type (py "paragraph") then
    match content with
    | JStr s =>
        let processed_content := strip (join (py " ") (splitlines s)) in
        if nonempty processed_content then
          add_paragraph w (JStr processed_content) Normal
        else Ok w
    | _ => Raise AttributeError
    end
  else if eq_str el_type (py "table_markdown") then
    match content with
    | JStr s => render_table w s
    | _ => if truthy content then Raise AttributeError else Ok w
    end
  else
    if truthy content then
      add_paragraph w
        (JStr (py "[Unknown type: " ++ format_field el_type
                 ++ py "] " ++ format_field content))
        Normal
    else Ok w.

(** Line 43: [for element in ...]. *)
Fixpoint render_elements (w : world) (elements : list json) : result world :=
  match elements with
  | [] => Ok w
  | element :: rest =>
      w' <- render_element w element ;;
      render_elements w' rest
  end.

(** Lines 95 to 101. *)
Definition save (w : world) : run :=
  if save_succeeds (body w) then
    Run true (printed w ++ [MsgCreated]) (Some (body w))
  else Run false (printed w ++ [MsgSaveError]) None.

(** Lines 32 to 101, on the outcome of [json.loads(json_content_str)].
    Only [json.JSONDecodeError] is caught at line 37, so any other exception
    of the loader leaves the function; past line 34 the value under the key
    is a list, so the last branch of the inner match is never taken. *)
Definition create_docx_from_structured_data (loaded : loads_result)
  : outcome :=
  match loaded with
  | JSONDecodeError => Finished (Run false [MsgDecodeError] None)
  | LoadsRaised e => Uncaught e
  | Loaded data =>
      match has_elements_list data with
      | Raise e => Uncaught e
      | Ok false => Finished (Run false [MsgKeyNotFound] None)
      | Ok true =>
          match
            (elements <- get data (py "document_elements") (JArr []) ;;
             match elements with
             | JArr items => render_elements (World [] []) items
             | _ => Raise TypeError
             end)
          with
          | Raise e => Uncaught e
          | Ok w => Finished (save w)
          end
      end
  end.

End Runtime.

End Assembler.
Import Assembler.

(** ** The specification's words

    Definitions that follow the specification, to be compared with the
    program. *)

Module Spec.

(** A candidate data line begins and ends with the delimiter. *)
Definition is_row_line (line : pystr) : bool :=
  startswith line PIPE && endswith line PIPE.

(** The cells of the accepted lines, in order. *)
Definition accepted_rows (content : pystr) : list (list pystr) :=
  map cells_of (filter is_row_line (lines_of content)).

(** Reconciling a row against [n] columns: truncated to the first [n]
    cells, or padded on the right with empty strings. *)
Definition fit (n : nat) (cells : list pystr) : list pystr :=
  if n <? length cells then firstn n cells
  else cells ++ repeat [] (n - length cells).

(** The grid of section 4.1: the first accepted line is the header, the
    others are reconciled against its cell count. *)
Definition grid (content : pystr) : list (list pystr) :=
  match accepted_rows content with
  | [] => []
  | header :: rest => header :: map (fit (length header)) rest
  end.

(** The text of a table in the format of section 6, GitHub-flavoured
    Markdown: one line per row, the cells between pipes and, in
    [gfm_table], a separator line under the header. The program reads this
    format and never writes it. *)
Definition format_row (cells : list pystr) : pystr :=
  py "| " ++ join (py " | ") cells ++ py " |".

Definition separator_row (m : nat) : list pystr := repeat (py "---") m.

Definition table_of_rows (rows : list (list pystr)) : pystr :=
  join [LF] (map format_row rows).

Definition gfm_table (header : list pystr) (rows : list (list pystr)) : pystr :=
  table_of_rows (header :: separator_row (length header) :: rows).

(** A cell as [format_row] writes it, between two spaces. *)
Definition padded (cell : pystr) : pystr := SPACE :: cell ++ [SPACE].

(** [s] has no occurrence of [sep]. *)
Definition lacks (sep : char) (s : pystr) : bool :=
  forallb (fun c => negb (c =? sep)%N) s.

(** A cell a table can hold: no pipe, no line feed, nothing to trim. *)
Definition clean (cell : pystr) : bool :=
  lacks PIPE cell && lacks LF cell && PyStr.eqb (strip cell) cell.

(** A row of a well-formed table of [m] columns. *)
Definition well_formed_row (m : nat) (row : list pystr) : bool :=
  (length row =? m) && forallb clean row.

(** Every line break replaced by one space; CR LF is one line break. *)
Fixpoint breaks_to_spaces (s : pystr) : pystr :=
  match s with
  | [] => []
  | c :: rest =>
      if is_linebreak c then
        match rest with
        | c' :: rest' =>
            if (c =? CR)%N && (c' =? LF)%N then SPACE :: breaks_to_spaces rest'
            else SPACE :: breaks_to_spaces rest
        | [] => SPACE :: breaks_to_spaces rest
        end
      else c :: breaks_to_spaces rest
  end.

(** Section 4.2, paragraph: line breaks collapsed, then trimmed. *)
Definition collapse (content : pystr) : pystr :=
  strip (breaks_to_spaces content).

(** [p] occurs in [s]. *)
Definition occurs (p s : pystr) : Prop :=
  exists before after, s = before ++ p ++ after.

(** The five recognised values of [type]. *)
Definition recognised (ty : json) : bool :=
  eq_str ty (py "heading_1") || eq_str ty (py "heading_2")
  || eq_str ty (py "heading_3") || eq_str ty (py "paragraph")
  || eq_str ty (py "table_markdown").

Definition is_heading (ty : json) : bool :=
  eq_str ty (py "heading_1") || eq_str ty (py "heading_2")
  || eq_str ty (py "heading_3").


(** An element written [{"type": ty, "content": content}]. *)
Definition element_of (ty content : pystr) : json :=
  JObj [(py "type", JStr ty); (py "content", JStr content)].

(** What one element adds to an empty document. *)
Definition contribution (str_of_value : json -> pystr) (element : json)
  : list block :=
  match render_element str_of_value (World [] []) element with
  | Ok w => body w
  | Raise _ => []
  end.

End Spec.
Import Spec.

(** ** The inputs of the specification's examples *)

Module Examples.

(** ["| A | B |\n|---|---|\n| 1 | 2 |"] *)
Definition table_text : pystr :=
  py "| A | B |" ++ [LF] ++ py "|---|---|" ++ [LF] ++ py "| 1 | 2 |".

(** The end-to-end input of section 8, as loaded. *)
Definition end_to_end_elements : list json :=
  [element_of (py "heading_1") (py "Title");
   element_of (py "table_markdown") table_text].

Definition end_to_end : json :=
  JObj [(py "document_elements", JArr end_to_end_elements)].

(** [{"foo": []}] *)
Definition foo_only : json := JObj [(py "foo", JArr [])].

(** A table of three columns and two data rows under a separator line. *)
Definition stock_text : pystr :=
  py "| Name | Qty | Unit |" ++ [LF] ++ py "| --- | --- | --- |" ++ [LF]
  ++ py "| flour | 2 | kg |" ++ [LF] ++ py "| milk | 1 | l |".

(** ["line one\nline two"] *)
Definition two_lines : pystr := py "line one" ++ [LF] ++ py "line two".

(** ["a\u0001b"]: a string with a control character. *)
Definition with_control : pystr := [97%N; 1%N; 98%N].

(** ["Page 1\fPage 2"]: a form feed between two pages. *)
Definition two_pages : pystr := py "Page 1" ++ [12%N] ++ py "Page 2".

(** A conversion that is never consulted on [str] values. *)
Definition no_str : json -> pystr := fun _ => [].

Definition disk_ok : document -> bool := fun _ => true.

End Examples.
Import Examples.

(** ** The batch driver

    [run_json_to_docx_conversion] with the parts of [os.path] it calls, as
    on POSIX. The operating system is outside the repository: a disk maps a
    path, as the string the program builds, to what it holds, and lists the
    names in a directory. *)

Module Batch.

Definition SLASH : char := 47%N.
Definition DOT : char := 46%N.

(** [s.endswith(suffix)] *)
Definition ends_with (s suffix : pystr) : bool :=
  is_prefix (rev suffix) (rev s).

(** [s.rfind(c)] counted from [i]: the highest index of [c], or [-1]. *)
Fixpoint rfind_from (c : char) (s : pystr) (i : Z) : Z :=
  match s with
  | [] => (-1)%Z
  | x :: rest =>
      let later := rfind_from c rest (i + 1)%Z in
      if (0 <=? later)%Z then later
      else if (x =? c)%N then i else (-1)%Z
  end.

Definition rfind (c : char) (s : pystr) : Z := rfind_from c s 0%Z.

(** [p[i:j]] for indices that are not negative. *)
Definition slice (p : pystr) (i j : Z) : pystr :=
  firstn (Z.to_nat j - Z.to_nat i) (skipn (Z.to_nat i) p).

(** [os.path.splitext(p)]: the extension starts at the last dot of the last
    component, unless only dots come before it there. The search loop over
    the leading dots is written as [existsb]. *)
Definition splitext (p : pystr) : pystr * pystr :=
  let sepIndex := rfind SLASH p in
  let dotIndex := rfind DOT p in
  if (sepIndex <? dotIndex)%Z then
    if existsb (fun c => negb (c =? DOT)%N) (slice p (sepIndex + 1)%Z dotIndex)
    then (firstn (Z.to_nat dotIndex) p, skipn (Z.to_nat dotIndex) p)
    else (p, [])
  else (p, []).

(** [os.path.join(a, b)] *)
Definition path_join (a b : pystr) : pystr :=
  if startswith b SLASH then b
  else if negb (nonempty a) || endswith a SLASH then a ++ b
  else a ++ [SLASH] ++ b.

(** Line 117. *)
Definition docx_filename_of (filename : pystr) : pystr :=
  fst (splitext filename) ++ py ".docx".

(** What a path holds: a directory, a file that reads as text, a file that
    does not, or a document saved by the program. *)
Inductive node :=
| Directory
| TextFile (content : pystr)
| OtherFile
| DocxFile (doc : document).

Record disk := Disk
  { node_at : pystr -> option node;
    listing : pystr -> list pystr }.

(** [os.path.isdir(p)] *)
Definition isdir (d : disk) (p : pystr) : bool :=
  match node_at d p with
  | Some Directory => true
  | _ => false
  end.

(** [os.path.exists(p)] *)
Definition path_exists (d : disk) (p : pystr) : bool :=
  match node_at d p with
  | Some _ => true
  | None => false
  end.

(** Lines 126 and 127: [None] when opening or reading raises. *)
Definition read_text (d : disk) (p : pystr) : option pystr :=
  match node_at d p with
  | Some (TextFile content) => Some content
  | _ => None
  end.

(** The disk once [doc.save(p)] has returned. *)
Definition write_docx (d : disk) (p : pystr) (doc : document) : disk :=
  Disk (fun q => if PyStr.eqb q p then Some (DocxFile doc) else node_at d q)
       (listing d).

Record arguments := Args
  { input_json_directory : pystr;
    output_docx_directory : pystr;
    overwrite : bool }.

(** What the driver prints; [Said] is a line printed inside
    [create_docx_from_structured_data]. *)
Inductive line :=
| ErrInputDirectory
| Skipping (json_path output_docx_path : pystr)
| Processing (json_path : pystr)
| ErrReading (json_path : pystr)
| SkippingEmpty (json_path : pystr)
| Complete
| Said (m : message).

(** Why a run stops early: an exception out of
    [create_docx_from_structured_data], or out of [os.makedirs]. *)
Inductive cause :=
| Python (e : exn)
| OSError.

Inductive batch_outcome :=
| Completed (d : disk) (log : list line)
| Crashed (c : cause) (d : disk) (log : list line).

Section Driver.

Variable str_of_value : json -> pystr.

(** [json.loads] *)
Variable json_loads : pystr -> loads_result.

(** [str.lower] *)
Variable lower : pystr -> pystr.

(** [os.makedirs(p, exist_ok=True)]: [None] when it raises. *)
Variable makedirs : disk -> pystr -> option disk.

(** Whether [doc.save(p)] returns without an exception; a save that raises
    is taken to leave the disk as it was. *)
Variable can_save : disk -> pystr -> document -> bool.

(** Line 115. *)
Definition is_json_name (filename : pystr) : bool :=
  ends_with (lower filename) (py ".json").

(** Lines 115 to 135: one iteration of the loop over the file names. *)
Definition convert_file (args : arguments) (d : disk) (log : list line)
  (filename : pystr) : batch_outcome :=
  if is_json_name filename then
    let json_path := path_join (input_json_directory args) filename in
    let docx_filename := docx_filename_of filename in
    let output_docx_path := path_join (output_docx_directory args) docx_filename in
    if path_exists d output_docx_path && negb (overwrite args) then
      Completed d (log ++ [Skipping json_path output_docx_path])
    else
      match read_text d json_path with
      | None => Completed d (log ++ [Processing json_path; ErrReading json_path])
      | Some json_content_str =>
          if nonempty (strip json_content_str) then
            match
              create_docx_from_structured_data str_of_value
                (can_save d output_docx_path) (json_loads json_content_str)
            with
            | Finished r =>
                Completed
                  match saved r with
                  | Some doc => write_docx d output_docx_path doc
                  | None => d
                  end
                  (log ++ [Processing json_path] ++ map Said (stdout r))
            | Uncaught e => Crashed (Python e) d (log ++ [Processing json_path])
            end
          else
            Completed d (log ++ [Processing json_path; SkippingEmpty json_path])
      end
  else Completed d log.

(** Line 114: [for filename in ...]; an exception ends the loop. *)
Fixpoint convert_files (args : arguments) (d : disk) (log : list line)
  (filenames : list pystr) : batch_outcome :=
  match filenames with
  | [] => Completed d log
  | filename :: rest =>
      match convert_file args d log filename with
      | Completed d' log' => convert_files args d' log' rest
      | Crashed c d' log' => Crashed c d' log'
      end
  end.

(** Lines 103 to 137. *)
Definition run_json_to_docx_conversion (args : arguments) (d : disk)
  : batch_outcome :=
  if negb (isdir d (input_json_directory args)) then
    Completed d [ErrInputDirectory]
  else
    match makedirs d (output_docx_directory args) with
    | None => Crashed OSError d []
    | Some d1 =>
        match
          convert_files args d1 [] (listing d1 (input_json_directory args))
        with
        | Completed d2 log => Completed d2 (log ++ [Complete])
        | Crashed c d2 log => Crashed c d2 log
        end
    end.

End Driver.

(** The disk and the output a run ends with. *)
Definition final_disk (o : batch_outcome) : disk :=
  match o with
  | Completed d _ => d
  | Crashed _ d _ => d
  end.

Definition final_log (o : batch_outcome) : list line :=
  match o with
  | Completed _ log => log
  | Crashed _ _ log => log
  end.

End Batch.
Import Batch.

(** ** A small disk for the examples of the batch driver *)

Module BatchExamples.

(** [str.lower] on the letters A to Z. *)
Definition ascii_lower (s : pystr) : pystr :=
  map (fun c => if in_range 65%N 90%N c then (c + 32)%N else c) s.

(** The text of the end-to-end input, standing for a file's content. *)
Definition report_text : pystr := py "report".

(** A loader that knows two texts: [report_text] loads to the end-to-end
    input and ["null"] to [None]; any other text is malformed. *)
Definition loads_sample (s : pystr) : loads_result :=
  if PyStr.eqb s report_text then Loaded end_to_end
  else if PyStr.eqb s (py "null") then Loaded JNull
  else JSONDecodeError.

(** [os.makedirs(p, exist_ok=True)] on a flat disk. *)
Definition makedirs_flat (d : disk) (p : pystr) : option disk :=
  match node_at d p with
  | None =>
      Some (Disk (fun q => if PyStr.eqb q p then Some Directory else node_at d q)
                 (listing d))
  | Some Directory => Some d
  | Some _ => None
  end.

Definition always_saves : disk -> pystr -> document -> bool :=
  fun _ _ _ => true.

(** A directory [in] with a report, a broken file and a note, and a
    directory [out] that already holds [old.docx]. *)
Definition sample_disk : disk :=
  Disk
    (fun p =>
       if PyStr.eqb p (py "in") then Some Directory
       else if PyStr.eqb p (py "out") then Some Directory
       else if PyStr.eqb p (py "in/report.JSON") then Some (TextFile report_text)
       else if PyStr.eqb p (py "in/old.json") then Some (TextFile report_text)
       else if PyStr.eqb p (py "in/broken.json") then Some (TextFile (py "{"))
       else if PyStr.eqb p (py "in/notes.txt") then Some (TextFile (py "hello"))
       else if PyStr.eqb p (py "out/old.docx") then Some (DocxFile [])
       else None)
    (fun p =>
       if PyStr.eqb p (py "in")
       then [py "broken.json"; py "notes.txt"; py "old.json"; py "report.JSON"]
       else []).

(** The same directory with a file that holds [null] listed before the
    report. *)
Definition null_disk : disk :=
  Disk
    (fun p =>
       if PyStr.eqb p (py "in/null.json") then Some (TextFile (py "null"))
       else node_at sample_disk p)
    (fun p =>
       if PyStr.eqb p (py "in") then [py "null.json"; py "report.JSON"]
       else []).

Definition sample_args : arguments := Args (py "in") (py "out") false.

End BatchExamples.
Import BatchExamples.

(** ** Shapes used to state what the program builds *)

Module Shapes.

(** The header row of a table: every run bold. *)
Definition header_cells (texts : list pystr) : list cell :=
  map (fun t => Cell t true) texts.

(** A data row of a table. *)
Definition data_cells (texts : list pystr) : list cell :=
  map (fun t => Cell t false) texts.

(** The table that shows a grid: as many columns as the first row has
    cells, the first row as header, the others as data. *)
Definition table_of_grid (header : list pystr) (rest : list (list pystr))
  : block :=
  Table (length header) (header_cells header :: map data_cells rest).

(** [isinstance(v, dict)] *)
Definition is_object (v : json) : bool :=
  match v with
  | JObj _ => true
  | _ => false
  end.

(** No line boundary of [str.splitlines] occurs in [s]. *)
Definition single_line (s : pystr) : bool :=
  forallb (fun c => negb (is_linebreak c)) s.

(** The stripped lines of [lines] that are not blank. *)
Definition trimmed_lines (lines : list pystr) : list pystr :=
  map strip (filter (fun line => nonempty (strip line)) lines).

(** A loaded value that is [None], a boolean or a number. *)
Definition is_scalar (v : json) : bool :=
  match v with
  | JNull | JBool _ | JInt _ | JFloat _ => true
  | _ => false
  end.




(** Every path that holds something on [d] holds the same on [d']. *)
Definition keeps_existing (d d' : disk) : Prop :=
  forall q, node_at d q <> None -> node_at d' q = node_at d q.


(** [os.makedirs] changes a disk by adding directories only. *)
Definition adds_directories_only (makedirs : disk -> pystr -> option disk)
  : Prop :=
  forall d p d', makedirs d p = Some d' ->
  forall q, node_at d' q = node_at d q
            \/ (node_at d q = None /\ node_at d' q = Some Directory).

End Shapes.
Import Shapes.

(** * Properties *)

(** ** Strings *)

Lemma split_not_nil (sep : char) (s : pystr) : split sep s <> [].
Proof.
  destruct s as [|c rest]; simpl; [discriminate|].
  destruct (c =? sep)%N; [discriminate|].
  destruct (split sep rest); discriminate.
Qed.

Lemma cells_of_length (line : pystr) : 1 <= length (cells_of line).
Proof.
  unfold cells_of. rewrite length_map.
  pose proof (split_not_nil PIPE (strip_chars (py "|") line)) as H.
  destruct (split PIPE (strip_chars (py "|") line)); [congruence|simpl; lia].
Qed.

Lemma eqb_eq (s t : pystr) : PyStr.eqb s t = true <-> s = t.
Proof.
  unfold PyStr.eqb. destruct (list_eq_dec N.eq_dec s t); split; congruence.
Qed.

Lemma eq_str_true (v : json) (literal : pystr) :
  eq_str v literal = true -> v = JStr literal.
Proof.
  destruct v; simpl; try discriminate. intros H. f_equal. now apply eqb_eq.
Qed.

(** ** The table parser *)

Lemma fit_length (n : nat) (cells : list pystr) : length (fit n cells) = n.
Proof.
  unfold fit. destruct (Nat.ltb_spec n (length cells)).
  - rewrite length_firstn. lia.
  - rewrite length_app, repeat_length. lia.
Qed.

Lemma loop_body_skip (st : loop_state) (i : nat) (line : pystr) :
  is_row_line line = false -> loop_body st i line = st.
Proof.
  unfold is_row_line, loop_body. intros H.
  replace (negb (startswith line PIPE) || negb (endswith line PIPE)) with true.
  - destruct ((i =? 1) && forallb (char_in (py "-|: ")) line); reflexivity.
  - destruct (startswith line PIPE), (endswith line PIPE); simpl in *; congruence.
Qed.

Lemma loop_body_row (data : list (list pystr)) (n i : nat) (line : pystr) :
  1 <= n -> is_row_line line = true ->
  loop_body (LoopState data true n) i line
  = LoopState (data ++ [fit n (cells_of line)]) true n.
Proof.
  unfold is_row_line, loop_body, fit, append_row. intros Hn H.
  apply andb_true_iff in H as [-> ->]. simpl.
  pose proof (cells_of_length line) as Hc.
  destruct (Nat.eqb_spec (length (cells_of line)) n) as [E|E].
  - rewrite <- E, Nat.ltb_irrefl, Nat.sub_diag. simpl. now rewrite app_nil_r.
  - destruct (Nat.ltb_spec n (length (cells_of line))) as [L|L].
    + replace (0 <? n) with true by (symmetry; apply Nat.ltb_lt; lia).
      reflexivity.
    + replace (length (cells_of line) <? n) with true
        by (symmetry; apply Nat.ltb_lt; lia).
      replace (0 <? n) with true by (symmetry; apply Nat.ltb_lt; lia).
      reflexivity.
Qed.

Lemma loop_after_header (lines : list pystr) :
  forall (data : list (list pystr)) (n i : nat), 1 <= n ->
  table_data (loop (LoopState data true n) i lines)
  = data ++ map (fit n) (map cells_of (filter is_row_line lines)).
Proof.
  induction lines as [|line rest IH]; intros data n i Hn; simpl.
  - now rewrite app_nil_r.
  - destruct (is_row_line line) eqn:E.
    + rewrite loop_body_row by assumption. rewrite IH by assumption.
      simpl. now rewrite <- app_assoc.
    + rewrite loop_body_skip by assumption. now apply IH.
Qed.

Lemma loop_before_header (lines : list pystr) :
  forall i : nat,
  table_data (loop (LoopState [] false 0) i lines)
  = match map cells_of (filter is_row_line lines) with
    | [] => []
    | header :: rest => header :: map (fit (length header)) rest
    end.
Proof.
  induction lines as [|line rest IH]; intros i; simpl; [reflexivity|].
  destruct (is_row_line line) eqn:E.
  - unfold loop_body. unfold is_row_line in E.
    apply andb_true_iff in E as [-> ->]. simpl.
    rewrite loop_after_header by apply cells_of_length. reflexivity.
  - rewrite loop_body_skip by assumption. apply IH.
Qed.

Lemma parse_markdown_table_grid (content : pystr) :
  parse_markdown_table content = grid content.
Proof.
  unfold parse_markdown_table, grid, accepted_rows.
  destruct (lines_of content) as [|line rest] eqn:E; [reflexivity|].
  simpl negb. cbv iota. apply loop_before_header.
Qed.

(** C3. Every row of the grid that [parse_markdown_table] returns has the
    cell count of its first row, the header; the grid is the header
    followed by the other accepted rows, each truncated to the header's
    cell count or padded on the right with empty strings up to it. *)
Theorem parse_rows_match_header (content : pystr) :
  let table := parse_markdown_table content in
  (forall row, In row table -> length row = length (hd [] table))
  /\ table = match accepted_rows content with
             | [] => []
             | header :: rest =>
                 header
                 :: map (fun cells =>
                           if length header <? length cells
                           then firstn (length header) cells
                           else cells ++ repeat [] (length header - length cells))
                      rest
             end.
Proof.
  cbv zeta. rewrite parse_markdown_table_grid. unfold grid.
  destruct (accepted_rows content) as [|header rest]; split; try reflexivity.
  - intros row [].
  - simpl. intros row [<-|H]; [reflexivity|].
    apply in_map_iff in H as [cells [<- _]]. apply fit_length.
Qed.

(** ** Stripping and line breaks *)

Lemma lstrip_by_all (drop : char -> bool) (s : pystr) :
  forallb drop s = true -> lstrip_by drop s = [].
Proof.
  induction s as [|c rest IH]; simpl; [reflexivity|].
  intros H. apply andb_true_iff in H as [-> H]. now apply IH.
Qed.

Lemma lstrip_by_app_all (drop : char -> bool) (s t : pystr) :
  forallb drop s = true -> lstrip_by drop (s ++ t) = lstrip_by drop t.
Proof.
  induction s as [|c rest IH]; simpl; [reflexivity|].
  intros H. apply andb_true_iff in H as [-> H]. now apply IH.
Qed.

Lemma lstrip_by_app_some (drop : char -> bool) (s t : pystr) :
  forallb drop s = false -> lstrip_by drop (s ++ t) = lstrip_by drop s ++ t.
Proof.
  induction s as [|c rest IH]; simpl; [discriminate|].
  destruct (drop c); simpl; [exact IH|reflexivity].
Qed.

Lemma forallb_rev (drop : char -> bool) (s : pystr) :
  forallb drop (rev s) = forallb drop s.
Proof.
  induction s as [|c rest IH]; simpl; [reflexivity|].
  rewrite forallb_app, IH. simpl. rewrite andb_true_r. apply andb_comm.
Qed.

Lemma strip_by_app_dropped (drop : char -> bool) (s t : pystr) :
  forallb drop t = true -> strip_by drop (s ++ t) = strip_by drop s.
Proof.
  intros Ht. unfold strip_by. destruct (forallb drop s) eqn:Hs.
  - rewrite lstrip_by_app_all by assumption.
    now rewrite (lstrip_by_all drop t Ht), (lstrip_by_all drop s Hs).
  - rewrite lstrip_by_app_some by assumption.
    rewrite rev_app_distr, lstrip_by_app_all; [reflexivity|].
    now rewrite forallb_rev.
Qed.

Lemma strip_app_spaces (s : pystr) (k : nat) :
  strip (s ++ repeat SPACE k) = strip s.
Proof.
  apply strip_by_app_dropped. induction k; simpl; auto.
Qed.

Lemma join_cons (sep cur : pystr) (parts : list pystr) :
  join sep (cur :: parts)
  = match parts with
    | [] => cur
    | _ => cur ++ sep ++ join sep parts
    end.
Proof. destruct parts; reflexivity. Qed.

Lemma breaks_after_boundary (cur rest : pystr) (k : nat) :
  breaks_to_spaces rest
  = join [SPACE] (splitlines_from [] rest) ++ repeat SPACE k ->
  exists k', cur ++ SPACE :: breaks_to_spaces rest
             = join [SPACE] (cur :: splitlines_from [] rest) ++ repeat SPACE k'.
Proof.
  intros H. rewrite join_cons, H.
  destruct (splitlines_from [] rest).
  - exists (S k). reflexivity.
  - exists k. now rewrite <- !app_assoc.
Qed.

Lemma breaks_to_spaces_join (n : nat) :
  forall cur s : pystr, length s <= n ->
  exists k, cur ++ breaks_to_spaces s
            = join [SPACE] (splitlines_from cur s) ++ repeat SPACE k.
Proof.
  induction n as [|n IH]; intros cur s Hlen.
  - destruct s; [|simpl in Hlen; lia]. exists 0. simpl.
    destruct cur; now rewrite ?app_nil_r.
  - destruct s as [|c rest].
    + exists 0. simpl. destruct cur; now rewrite ?app_nil_r.
    + simpl in Hlen. simpl. destruct (is_linebreak c).
      * destruct rest as [|c' rest'].
        -- exists 1. simpl. reflexivity.
        -- destruct ((c =? CR)%N && (c' =? LF)%N).
           ++ destruct (IH [] rest') as [k Hk]; [simpl in Hlen; lia|].
              now apply breaks_after_boundary with k.
           ++ destruct (IH [] (c' :: rest')) as [k Hk]; [lia|].
              now apply breaks_after_boundary with k.
      * destruct (IH (cur ++ [c]) rest) as [k Hk]; [lia|].
        exists k. rewrite <- Hk, <- app_assoc. reflexivity.
Qed.

Lemma join_splitlines_collapse (s : pystr) :
  strip (join (py " ") (splitlines s)) = collapse s.
Proof.
  unfold collapse, splitlines.
  destruct (breaks_to_spaces_join (length s) [] s (le_n _)) as [k Hk].
  simpl in Hk. rewrite Hk. symmetry. apply strip_app_spaces.
Qed.

(** ** The parser on the separator line *)

(** C1. On the table of section 8 the second parsed line, [|---|---|], is
    made of the characters of ['-|: '] only, and yet it is not skipped: it
    is the second row of the grid. *)
Theorem separator_line_kept_as_row :
  nth_error (lines_of table_text) 1 = Some (py "|---|---|")
  /\ forallb (char_in (py "-|: ")) (py "|---|---|") = true
  /\ parse_markdown_table table_text
     = [[py "A"; py "B"]; [py "---"; py "---"]; [py "1"; py "2"]].
Proof. repeat split; vm_compute; reflexivity. Qed.

(** The table of three columns and two data rows parses to four rows. *)
Example stock_text_parsed :
  parse_markdown_table stock_text
  = [[py "Name"; py "Qty"; py "Unit"];
     [py "---"; py "---"; py "---"];
     [py "flour"; py "2"; py "kg"];
     [py "milk"; py "1"; py "l"]].
Proof. vm_compute. reflexivity. Qed.

(** ** Parsing a serialised grid *)

Lemma split_lacks (sep : char) (s : pystr) :
  lacks sep s = true -> split sep s = [s].
Proof.
  induction s as [|c rest IH]; simpl; [reflexivity|].
  intros H. apply andb_true_iff in H as [Hc Hr].
  apply negb_true_iff in Hc. rewrite Hc, (IH Hr). reflexivity.
Qed.

Lemma split_app_sep (sep : char) (s t : pystr) :
  lacks sep s = true -> split sep (s ++ sep :: t) = s :: split sep t.
Proof.
  induction s as [|c rest IH]; simpl.
  - intros _. now rewrite N.eqb_refl.
  - intros H. apply andb_true_iff in H as [Hc Hr].
    apply negb_true_iff in Hc. rewrite Hc, (IH Hr). reflexivity.
Qed.

Lemma split_join (sep : char) (parts : list pystr) :
  parts <> [] -> forallb (lacks sep) parts = true ->
  split sep (join [sep] parts) = parts.
Proof.
  induction parts as [|p rest IH]; [congruence|]. intros _ H.
  simpl in H. apply andb_true_iff in H as [Hp Hr].
  destruct rest as [|q rest'].
  - simpl. now apply split_lacks.
  - rewrite join_cons. simpl app. rewrite split_app_sep by assumption.
    f_equal. apply IH; [discriminate|assumption].
Qed.

Lemma lacks_app (sep : char) (s t : pystr) :
  lacks sep (s ++ t) = lacks sep s && lacks sep t.
Proof. apply forallb_app. Qed.

Lemma split_padded_join (cells : list pystr) :
  cells <> [] -> forallb (lacks PIPE) cells = true ->
  split PIPE (SPACE :: join (py " | ") cells ++ [SPACE]) = map padded cells.
Proof.
  induction cells as [|c rest IH]; [congruence|]. intros _ H.
  simpl in H. apply andb_true_iff in H as [Hc Hr].
  destruct rest as [|q rest'].
  - simpl join. simpl map. apply (split_lacks PIPE (padded c)).
    unfold padded. simpl. now rewrite lacks_app, Hc.
  - rewrite join_cons. change (py " | ") with [SPACE; PIPE; SPACE].
    replace (SPACE :: (c ++ [SPACE; PIPE; SPACE] ++ join [SPACE; PIPE; SPACE] (q :: rest')) ++ [SPACE])
      with (padded c ++ PIPE :: (SPACE :: join [SPACE; PIPE; SPACE] (q :: rest') ++ [SPACE]))
      by (unfold padded; simpl; now rewrite <- !app_assoc).
    rewrite split_app_sep.
    + simpl map. f_equal. apply IH; [discriminate|assumption].
    + unfold padded. simpl. now rewrite lacks_app, Hc.
Qed.

Lemma strip_by_dropped_app (drop : char -> bool) (s t : pystr) :
  forallb drop s = true -> strip_by drop (s ++ t) = strip_by drop t.
Proof.
  intros H. unfold strip_by. now rewrite lstrip_by_app_all.
Qed.

Lemma strip_padded (cell : pystr) : strip (padded cell) = strip cell.
Proof.
  unfold padded, strip.
  change (SPACE :: cell ++ [SPACE]) with ([SPACE] ++ cell ++ [SPACE]).
  rewrite (strip_by_dropped_app isspace [SPACE] (cell ++ [SPACE]) eq_refl).
  now apply strip_by_app_dropped.
Qed.

Lemma strip_by_kept_ends (drop : char -> bool) (a b : char) (s : pystr) :
  drop a = false -> drop b = false ->
  strip_by drop (a :: s ++ [b]) = a :: s ++ [b].
Proof.
  intros Ha Hb. unfold strip_by. simpl lstrip_by at 2. rewrite Ha.
  simpl rev. rewrite rev_app_distr. simpl. rewrite Hb.
  change (b :: rev s ++ [a]) with ((b :: rev s) ++ [a]).
  rewrite rev_app_distr. simpl. now rewrite rev_involutive.
Qed.

Lemma format_row_shape (cells : list pystr) :
  format_row cells
  = PIPE :: (SPACE :: join (py " | ") cells ++ [SPACE]) ++ [PIPE].
Proof.
  unfold format_row. change (py "| ") with [PIPE; SPACE].
  change (py " |") with [SPACE; PIPE]. simpl. now rewrite <- app_assoc.
Qed.

Lemma cells_of_format_row (cells : list pystr) :
  cells <> [] -> forallb clean cells = true ->
  cells_of (format_row cells) = cells.
Proof.
  intros Hne Hclean. unfold cells_of.
  assert (Hstrip : strip_chars (py "|") (format_row cells)
                   = SPACE :: join (py " | ") cells ++ [SPACE]).
  { rewrite format_row_shape. unfold strip_chars.
    change (PIPE :: (SPACE :: join (py " | ") cells ++ [SPACE]) ++ [PIPE])
      with ([PIPE] ++ (SPACE :: join (py " | ") cells ++ [SPACE]) ++ [PIPE]).
    rewrite strip_by_dropped_app by reflexivity.
    rewrite strip_by_app_dropped by reflexivity.
    now apply strip_by_kept_ends. }
  rewrite Hstrip, split_padded_join; trivial.
  - rewrite map_map. rewrite <- (map_id cells) at 2.
    apply map_ext_in. intros c Hc. unfold clean_cell.
    rewrite strip_padded. rewrite forallb_forall in Hclean.
    specialize (Hclean c Hc). unfold clean in Hclean.
    apply andb_true_iff in Hclean as [_ H]. now apply eqb_eq.
  - apply forallb_forall. intros c Hc. rewrite forallb_forall in Hclean.
    specialize (Hclean c Hc). unfold clean in Hclean.
    now apply andb_true_iff in Hclean as [H%andb_true_iff _].
Qed.

Lemma clean_inv (cell : pystr) :
  clean cell = true ->
  lacks PIPE cell = true /\ lacks LF cell = true /\ strip cell = cell.
Proof.
  unfold clean. intros H. apply andb_true_iff in H as [H Hs].
  apply andb_true_iff in H as [Hp Hl]. now apply eqb_eq in Hs.
Qed.

Lemma lacks_join (sep : char) (glue : pystr) (parts : list pystr) :
  lacks sep glue = true -> forallb (lacks sep) parts = true ->
  lacks sep (join glue parts) = true.
Proof.
  intros Hg. induction parts as [|p rest IH]; [reflexivity|].
  intros H. simpl in H. apply andb_true_iff in H as [Hp Hr].
  rewrite join_cons. destruct rest; [assumption|].
  now rewrite !lacks_app, Hp, Hg, (IH Hr).
Qed.

Lemma format_row_lacks_LF (cells : list pystr) :
  forallb clean cells = true -> lacks LF (format_row cells) = true.
Proof.
  intros H. unfold format_row. rewrite !lacks_app.
  rewrite (lacks_join LF (py " | ") cells eq_refl); [reflexivity|].
  apply forallb_forall. intros c Hc. rewrite forallb_forall in H.
  now destruct (clean_inv c (H c Hc)) as [_ [Hl _]].
Qed.

Lemma strip_format_row (cells : list pystr) :
  strip (format_row cells) = format_row cells.
Proof. rewrite format_row_shape. now apply strip_by_kept_ends. Qed.

Lemma is_row_line_format_row (cells : list pystr) :
  is_row_line (format_row cells) = true.
Proof.
  rewrite format_row_shape. unfold is_row_line, endswith. simpl.
  now rewrite rev_app_distr.
Qed.

Lemma table_of_rows_shape (rows : list (list pystr)) :
  rows <> [] -> exists s, table_of_rows rows = PIPE :: s ++ [PIPE].
Proof.
  unfold table_of_rows.
  induction rows as [|row rest IH]; [congruence|]. intros _.
  simpl map. rewrite join_cons. destruct rest as [|row' rest'].
  - simpl map. cbv iota. rewrite format_row_shape. eauto.
  - destruct IH as [s Hs]; [discriminate|].
    change (map format_row (row' :: rest'))
      with (format_row row' :: map format_row rest') in *.
    cbv iota. rewrite Hs, format_row_shape.
    exists ((SPACE :: join (py " | ") row ++ [SPACE]) ++ [PIPE] ++ [LF]
            ++ PIPE :: s).
    simpl. f_equal. f_equal. rewrite <- !app_assoc. reflexivity.
Qed.

Lemma filter_all {A : Type} (f : A -> bool) (l : list A) :
  forallb f l = true -> filter f l = l.
Proof.
  induction l as [|a rest IH]; simpl; [reflexivity|].
  intros H. apply andb_true_iff in H as [-> H]. now rewrite IH.
Qed.

Lemma lines_of_table (rows : list (list pystr)) :
  rows <> [] -> forallb (forallb clean) rows = true ->
  lines_of (table_of_rows rows) = map format_row rows.
Proof.
  intros Hne Hclean. unfold lines_of.
  destruct (table_of_rows_shape rows Hne) as [s Hs].
  assert (Hstrip : strip (table_of_rows rows) = table_of_rows rows)
    by (rewrite Hs; now apply strip_by_kept_ends).
  rewrite Hstrip. unfold table_of_rows. rewrite split_join.
  - rewrite filter_all.
    + rewrite <- (map_id (map format_row rows)) at 2.
      apply map_ext_in. intros line Hin.
      apply in_map_iff in Hin as [cells [<- _]]. apply strip_format_row.
    + apply forallb_forall. intros line Hin.
      apply in_map_iff in Hin as [cells [<- _]].
      rewrite strip_format_row, format_row_shape. reflexivity.
  - destruct rows; [congruence|discriminate].
  - apply forallb_forall. intros line Hin.
    apply in_map_iff in Hin as [cells [<- Hin]].
    apply format_row_lacks_LF. rewrite forallb_forall in Hclean.
    now apply Hclean.
Qed.

Lemma accepted_rows_table (rows : list (list pystr)) :
  rows <> [] -> forallb (forallb clean) rows = true ->
  forallb nonempty rows = true ->
  accepted_rows (table_of_rows rows) = rows.
Proof.
  intros Hne Hclean Hcells. unfold accepted_rows.
  rewrite lines_of_table by assumption. rewrite filter_all.
  - rewrite map_map. rewrite <- (map_id rows) at 2.
    apply map_ext_in. intros cells Hin. rewrite forallb_forall in Hclean, Hcells.
    apply cells_of_format_row; [|now apply Hclean].
    specialize (Hcells cells Hin). now destruct cells.
  - apply forallb_forall. intros line Hin.
    apply in_map_iff in Hin as [cells [<- _]]. apply is_row_line_format_row.
Qed.

Lemma fit_exact (cells : list pystr) : fit (length cells) cells = cells.
Proof.
  unfold fit. rewrite Nat.ltb_irrefl, Nat.sub_diag. simpl. apply app_nil_r.
Qed.

(** A header of clean cells followed by rows of as many clean cells, written
    one line per row and nothing else, parses to itself. *)
Lemma parse_table_of_rows (header : list pystr) (rows : list (list pystr)) :
  header <> [] -> forallb clean header = true ->
  forallb (well_formed_row (length header)) rows = true ->
  parse_markdown_table (table_of_rows (header :: rows)) = header :: rows.
Proof.
  intros Hne Hh Hrows. rewrite forallb_forall in Hrows.
  rewrite parse_markdown_table_grid. unfold grid.
  rewrite accepted_rows_table.
  - f_equal. rewrite <- (map_id rows) at 2. apply map_ext_in.
    intros row Hin. specialize (Hrows row Hin). unfold well_formed_row in Hrows.
    apply andb_true_iff in Hrows as [Hlen _]. apply Nat.eqb_eq in Hlen.
    rewrite <- Hlen. apply fit_exact.
  - discriminate.
  - simpl. rewrite Hh. apply forallb_forall. intros row Hin.
    specialize (Hrows row Hin). unfold well_formed_row in Hrows.
    now apply andb_true_iff in Hrows as [_ H].
  - simpl. apply andb_true_iff. split; [now destruct header|].
    apply forallb_forall. intros row Hin.
    specialize (Hrows row Hin). unfold well_formed_row in Hrows.
    apply andb_true_iff in Hrows as [Hlen _]. apply Nat.eqb_eq in Hlen.
    destruct row; [|reflexivity]. destruct header; [congruence|discriminate].
Qed.

Lemma separator_row_well_formed (m : nat) :
  well_formed_row m (separator_row m) = true.
Proof.
  unfold well_formed_row, separator_row.
  rewrite repeat_length, Nat.eqb_refl. simpl.
  induction m; simpl; [reflexivity|]. rewrite IHm. reflexivity.
Qed.

(** C6. A well-formed table of [M] columns, written with its separator line
    under the header and [N] data rows, parses to [N + 2] rows: the
    separator line comes back as a row of [M] cells ["---"] between the
    header and the data. *)
Theorem gfm_table_gets_separator_row
  (header : list pystr) (rows : list (list pystr)) :
  header <> [] -> forallb clean header = true ->
  forallb (well_formed_row (length header)) rows = true ->
  parse_markdown_table (gfm_table header rows)
  = header :: separator_row (length header) :: rows
  /\ length (parse_markdown_table (gfm_table header rows)) = length rows + 2.
Proof.
  intros Hne Hh Hrows.
  assert (H : parse_markdown_table (gfm_table header rows)
              = header :: separator_row (length header) :: rows).
  { apply parse_table_of_rows; trivial.
    simpl. now rewrite separator_row_well_formed. }
  split; [exact H|]. rewrite H. simpl. lia.
Qed.

Lemma gfm_table_gets_separator_row_witness :
  [py "Name"; py "Qty"; py "Unit"] <> []
  /\ forallb clean [py "Name"; py "Qty"; py "Unit"] = true
  /\ forallb (well_formed_row 3)
       [[py "flour"; py "2"; py "kg"]; [py "milk"; py "1"; py "l"]] = true
  /\ gfm_table [py "Name"; py "Qty"; py "Unit"]
       [[py "flour"; py "2"; py "kg"]; [py "milk"; py "1"; py "l"]]
     = stock_text
  /\ length (parse_markdown_table stock_text) = 4.
Proof.
  split; [discriminate|]. split; [reflexivity|]. split; [reflexivity|].
  split; [reflexivity|].
  exact (proj2 (gfm_table_gets_separator_row
                  [py "Name"; py "Qty"; py "Unit"]
                  [[py "flour"; py "2"; py "kg"]; [py "milk"; py "1"; py "l"]]
                  ltac:(discriminate) eq_refl eq_refl)).
Defined.

(** ** Every parsed grid is made of clean cells *)

Lemma lstrip_by_head (drop : char -> bool) (s : pystr) :
  match lstrip_by drop s with
  | [] => True
  | c :: _ => drop c = false
  end.
Proof.
  induction s as [|c rest IH]; simpl; [exact I|].
  destruct (drop c) eqn:E; [exact IH|exact E].
Qed.

Lemma lstrip_by_suffix (drop : char -> bool) (s : pystr) :
  exists p, s = p ++ lstrip_by drop s.
Proof.
  induction s as [|c rest [p Hp]]; simpl; [now exists []|].
  destruct (drop c).
  - exists (c :: p). simpl. now rewrite <- Hp.
  - now exists [].
Qed.

Lemma lstrip_by_kept (drop : char -> bool) (c : char) (s : pystr) :
  drop c = false -> lstrip_by drop (c :: s) = c :: s.
Proof. intros H. simpl. now rewrite H. Qed.

Lemma strip_by_idempotent (drop : char -> bool) (s : pystr) :
  strip_by drop (strip_by drop s) = strip_by drop s.
Proof.
  unfold strip_by.
  pose proof (lstrip_by_head drop s) as Ht.
  destruct (lstrip_by_suffix drop (rev (lstrip_by drop s))) as [p Hp].
  pose proof (lstrip_by_head drop (rev (lstrip_by drop s))) as Hu.
  set (t := lstrip_by drop s) in *.
  set (u := lstrip_by drop (rev t)) in *.
  assert (Hrev : lstrip_by drop (rev u) = rev u).
  { apply (f_equal (@rev char)) in Hp.
    rewrite rev_involutive, rev_app_distr in Hp.
    destruct (rev u) as [|a m] eqn:E; [reflexivity|].
    apply lstrip_by_kept. rewrite Hp in Ht. exact Ht. }
  rewrite Hrev, rev_involutive.
  destruct u as [|k u'] eqn:E; [reflexivity|].
  now rewrite (lstrip_by_kept drop k u' Hu).
Qed.

Lemma lacks_lstrip_by (sep : char) (drop : char -> bool) (s : pystr) :
  lacks sep s = true -> lacks sep (lstrip_by drop s) = true.
Proof.
  induction s as [|c rest IH]; simpl; [reflexivity|]. intros H.
  destruct (drop c); [|exact H].
  apply andb_true_iff in H as [_ H]. now apply IH.
Qed.

Lemma lacks_strip_by (sep : char) (drop : char -> bool) (s : pystr) :
  lacks sep s = true -> lacks sep (strip_by drop s) = true.
Proof.
  intros H. unfold strip_by, lacks. rewrite forallb_rev.
  apply lacks_lstrip_by. unfold lacks. rewrite forallb_rev.
  now apply lacks_lstrip_by.
Qed.

Lemma split_fields_lack (sep : char) (s : pystr) :
  forallb (lacks sep) (split sep s) = true.
Proof.
  induction s as [|c rest IH]; simpl; [reflexivity|].
  destruct (c =? sep)%N eqn:E; [exact IH|].
  destruct (split sep rest) as [|field fields]; simpl in *.
  - now rewrite E.
  - now rewrite E.
Qed.

Lemma split_fields_keep (other sep : char) (s : pystr) :
  lacks other s = true -> forallb (lacks other) (split sep s) = true.
Proof.
  induction s as [|c rest IH]; simpl; [reflexivity|]. intros H.
  apply andb_true_iff in H as [Hc Hr]. specialize (IH Hr).
  destruct (c =? sep)%N; [exact IH|].
  destruct (split sep rest) as [|field fields]; simpl in *.
  - now rewrite Hc.
  - now rewrite Hc.
Qed.

Lemma cells_of_clean (line : pystr) :
  lacks LF line = true -> forallb clean (cells_of line) = true.
Proof.
  intros Hline. unfold cells_of. apply forallb_forall. intros cell Hin.
  apply in_map_iff in Hin as [field [<- Hin]].
  pose proof (split_fields_lack PIPE (strip_chars (py "|") line)) as Hp.
  pose proof (split_fields_keep LF PIPE (strip_chars (py "|") line)
                (lacks_strip_by LF _ line Hline)) as Hl.
  rewrite forallb_forall in Hp, Hl.
  unfold clean, clean_cell, strip.
  rewrite (lacks_strip_by PIPE _ field (Hp field Hin)).
  rewrite (lacks_strip_by LF _ field (Hl field Hin)).
  rewrite strip_by_idempotent. simpl. now apply eqb_eq.
Qed.

Lemma lines_of_lack_LF (content : pystr) :
  forallb (lacks LF) (lines_of content) = true.
Proof.
  unfold lines_of. apply forallb_forall. intros line Hin.
  apply in_map_iff in Hin as [raw [<- Hin]].
  apply filter_In in Hin as [Hin _].
  pose proof (split_fields_lack LF (strip content)) as H.
  rewrite forallb_forall in H. apply lacks_strip_by. now apply H.
Qed.

Lemma accepted_rows_clean (content : pystr) (cells : list pystr) :
  In cells (accepted_rows content) ->
  cells <> [] /\ forallb clean cells = true.
Proof.
  unfold accepted_rows. intros Hin.
  apply in_map_iff in Hin as [line [<- Hin]].
  apply filter_In in Hin as [Hin _]. split.
  - pose proof (cells_of_length line) as H.
    destruct (cells_of line); [simpl in H; lia|discriminate].
  - apply cells_of_clean. pose proof (lines_of_lack_LF content) as H.
    rewrite forallb_forall in H. now apply H.
Qed.

Lemma fit_clean (n : nat) (cells : list pystr) :
  forallb clean cells = true -> forallb clean (fit n cells) = true.
Proof.
  intros H. unfold fit. destruct (n <? length cells).
  - rewrite forallb_forall in *. intros c Hc. apply H.
    rewrite <- (firstn_skipn n cells). apply in_or_app. now left.
  - rewrite forallb_app, H. simpl.
    induction (n - length cells); simpl; auto.
Qed.

(** X5. Written back one line per row, without a separator line, the grid
    of any content parses to itself. *)
Lemma parse_markdown_table_idempotent (content : pystr) :
  parse_markdown_table (table_of_rows (parse_markdown_table content))
  = parse_markdown_table content.
Proof.
  rewrite (parse_markdown_table_grid content). unfold grid.
  destruct (accepted_rows content) as [|header rest] eqn:E; [reflexivity|].
  assert (Hin : forall cells, In cells (header :: rest) ->
                  cells <> [] /\ forallb clean cells = true)
    by (intros cells H; apply (accepted_rows_clean content); now rewrite E).
  destruct (Hin header (or_introl eq_refl)) as [Hne Hclean].
  apply parse_table_of_rows; trivial.
  apply forallb_forall. intros row Hrow.
  apply in_map_iff in Hrow as [cells [<- Hcells]].
  unfold well_formed_row. rewrite fit_length, Nat.eqb_refl. simpl.
  apply fit_clean. now apply (Hin cells (or_intror Hcells)).
Qed.

(** * Further properties of the parser *)

Lemma loop_body_index (st : loop_state) (i j : nat) (line : pystr) :
  loop_body st i line = loop_body st j line.
Proof.
  unfold loop_body.
  destruct (negb (startswith line PIPE) || negb (endswith line PIPE));
    [|reflexivity].
  now destruct ((i =? 1) && _), ((j =? 1) && _).
Qed.

(** X1. The test on the line number at line 15 has no effect: the loop
    reaches the same state from any starting index, so no line is treated
    differently for being the second one. *)
Theorem loop_ignores_line_numbers (lines : list pystr) :
  forall (st : loop_state) (i j : nat), loop st i lines = loop st j lines.
Proof.
  induction lines as [|line rest IH]; intros st i j; simpl; [reflexivity|].
  rewrite (loop_body_index st i j line). apply IH.
Qed.

(** X2. The grid has one row for each line that starts and ends with a
    pipe, and no other row: none of these lines is dropped, whatever its
    cell count. *)
Theorem one_row_per_delimited_line (content : pystr) :
  length (parse_markdown_table content)
  = length (filter is_row_line (lines_of content)).
Proof.
  rewrite parse_markdown_table_grid. unfold grid, accepted_rows.
  destruct (filter is_row_line (lines_of content)) as [|line rest];
    [reflexivity|].
  simpl. now rewrite !length_map.
Qed.

Lemma lacks_not_in (sep : char) (s : pystr) :
  lacks sep s = true -> ~ In sep s.
Proof.
  unfold lacks. rewrite forallb_forall. intros H Hin.
  specialize (H sep Hin). now rewrite N.eqb_refl in H.
Qed.

Lemma grid_rows (content : pystr) (row : list pystr) :
  In row (grid content) ->
  length row = length (hd [] (grid content))
  /\ row <> [] /\ forallb clean row = true.
Proof.
  unfold grid. destruct (accepted_rows content) as [|header rest] eqn:E;
    [intros []|].
  assert (Hin : forall cells, In cells (header :: rest) ->
                  cells <> [] /\ forallb clean cells = true)
    by (intros cells H; apply (accepted_rows_clean content); now rewrite E).
  destruct (Hin header (or_introl eq_refl)) as [Hne Hclean].
  simpl. intros [<-|H]; [auto|].
  apply in_map_iff in H as [cells [<- Hcells]].
  rewrite fit_length. split; [reflexivity|]. split.
  - intros Hnil. apply (f_equal (@length pystr)) in Hnil.
    rewrite fit_length in Hnil. destruct header; [congruence|discriminate].
  - apply fit_clean. now apply (Hin cells (or_intror Hcells)).
Qed.

(** X3. Every row of a returned grid has at least one cell, and every cell
    is trimmed and holds neither a pipe nor a line feed. *)
Theorem parsed_cells_are_clean (content : pystr) (row : list pystr) (cell : pystr) :
  In row (parse_markdown_table content) -> In cell row ->
  row <> [] /\ strip cell = cell /\ ~ In PIPE cell /\ ~ In LF cell.
Proof.
  rewrite parse_markdown_table_grid. intros Hrow Hcell.
  destruct (grid_rows content row Hrow) as [_ [Hne Hclean]].
  rewrite forallb_forall in Hclean.
  destruct (clean_inv cell (Hclean cell Hcell)) as [Hp [Hl Hs]].
  repeat split; auto using lacks_not_in.
Qed.

Lemma parsed_cells_are_clean_witness :
  In [py "A"; py "B"] (parse_markdown_table table_text)
  /\ In (py "B") [py "A"; py "B"]
  /\ [py "A"; py "B"] <> []
  /\ strip (py "B") = py "B" /\ ~ In PIPE (py "B") /\ ~ In LF (py "B").
Proof.
  assert (Hrow : In [py "A"; py "B"] (parse_markdown_table table_text))
    by (left; reflexivity).
  assert (Hcell : In (py "B") [py "A"; py "B"])
    by (right; left; reflexivity).
  split; [exact Hrow|split; [exact Hcell|]].
  exact (parsed_cells_are_clean table_text [py "A"; py "B"] (py "B") Hrow Hcell).
Defined.

(** X4. A header of clean cells followed by rows of clean cells of any
    count, written one line per row as [| c1 | c2 |], parses to the header
    followed by each row cut or padded to the header's cell count. *)
Theorem written_rows_parse_back
  (header : list pystr) (rows : list (list pystr)) :
  header <> [] -> forallb clean header = true ->
  forallb (fun row => nonempty row && forallb clean row) rows = true ->
  parse_markdown_table (table_of_rows (header :: rows))
  = header :: map (fit (length header)) rows.
Proof.
  intros Hne Hh Hrows. rewrite forallb_forall in Hrows.
  rewrite parse_markdown_table_grid. unfold grid.
  rewrite accepted_rows_table; [reflexivity|discriminate| |].
  - simpl. rewrite Hh. apply forallb_forall. intros row Hin.
    now destruct (proj1 (andb_true_iff _ _) (Hrows row Hin)).
  - simpl. apply andb_true_iff. split; [now destruct header|].
    apply forallb_forall. intros row Hin.
    now destruct (proj1 (andb_true_iff _ _) (Hrows row Hin)).
Qed.

Lemma written_rows_parse_back_witness :
  [py "A"; py "B"] <> []
  /\ forallb clean [py "A"; py "B"] = true
  /\ forallb (fun row => nonempty row && forallb clean row)
       [[py "1"]; [py "2"; py "3"; py "4"]] = true
  /\ parse_markdown_table
       (py "| A | B |" ++ [LF] ++ py "| 1 |" ++ [LF] ++ py "| 2 | 3 | 4 |")
     = [[py "A"; py "B"]; [py "1"; []]; [py "2"; py "3"]].
Proof.
  split; [discriminate|split; [reflexivity|split; [reflexivity|]]].
  exact (written_rows_parse_back [py "A"; py "B"]
           [[py "1"]; [py "2"; py "3"; py "4"]]
           ltac:(discriminate) eq_refl eq_refl).
Defined.

Lemma repeat_pipes_dropped (k : nat) :
  forallb (char_in (py "|")) (repeat PIPE k) = true.
Proof. induction k; simpl; auto. Qed.

(** X6. Any number of pipes at either end of a line is taken off before
    the line is split: further pipes there add no cell, so an empty outer
    cell written [||] is lost. *)
Theorem outer_pipes_add_no_cell (k m : nat) (line : pystr) :
  cells_of (repeat PIPE k ++ line ++ repeat PIPE m) = cells_of line.
Proof.
  unfold cells_of, strip_chars.
  rewrite strip_by_dropped_app by apply repeat_pipes_dropped.
  now rewrite strip_by_app_dropped by apply repeat_pipes_dropped.
Qed.

(** * Blank lines and indentation *)

Lemma lstrip_by_split (drop : char -> bool) (s : pystr) :
  exists p, s = p ++ lstrip_by drop s /\ forallb drop p = true.
Proof.
  induction s as [|c rest [p [Hp Hd]]]; simpl; [now exists []|].
  destruct (drop c) eqn:E.
  - exists (c :: p). simpl. rewrite E, Hd. split; [now rewrite <- Hp|reflexivity].
  - now exists [].
Qed.

Lemma strip_by_split (drop : char -> bool) (s : pystr) :
  exists p q, s = p ++ strip_by drop s ++ q
              /\ forallb drop p = true /\ forallb drop q = true.
Proof.
  destruct (lstrip_by_split drop s) as [p [Hp Hdp]].
  destruct (lstrip_by_split drop (rev (lstrip_by drop s))) as [q [Hq Hdq]].
  exists p, (rev q). unfold strip_by. split; [|split; [exact Hdp|]].
  - rewrite <- rev_app_distr, <- Hq, rev_involutive. exact Hp.
  - now rewrite forallb_rev.
Qed.

Lemma strip_all_space (s : pystr) : forallb isspace s = true -> strip s = [].
Proof.
  intros H. unfold strip, strip_by. now rewrite (lstrip_by_all isspace s H).
Qed.

Lemma trimmed_lines_app (a b : list pystr) :
  trimmed_lines (a ++ b) = trimmed_lines a ++ trimmed_lines b.
Proof. unfold trimmed_lines. now rewrite filter_app, map_app. Qed.

Lemma trimmed_lines_cons_space (c : char) (line : pystr) (rest : list pystr) :
  isspace c = true ->
  trimmed_lines ((c :: line) :: rest) = trimmed_lines (line :: rest).
Proof.
  intros H. unfold trimmed_lines. cbn [filter].
  assert (E : strip (c :: line) = strip line)
    by (apply (strip_by_dropped_app isspace [c] line); simpl; now rewrite H).
  rewrite E. destruct (nonempty (strip line)); cbn [map]; now rewrite ?E.
Qed.

Lemma trimmed_lines_prefix (p x : pystr) :
  forallb isspace p = true ->
  trimmed_lines (split LF (p ++ x)) = trimmed_lines (split LF x).
Proof.
  induction p as [|c rest IH]; [reflexivity|]. intros H.
  simpl in H. apply andb_true_iff in H as [Hc Hr]. specialize (IH Hr).
  cbn [app split]. destruct (c =? LF)%N; [exact IH|].
  pose proof (split_not_nil LF (rest ++ x)) as Hne.
  destruct (split LF (rest ++ x)) as [|field fields]; [congruence|].
  now rewrite trimmed_lines_cons_space.
Qed.

Lemma split_app_tail (x q : pystr) :
  exists init line field fields,
    split LF x = init ++ [line]
    /\ split LF q = field :: fields
    /\ split LF (x ++ q) = init ++ (line ++ field) :: fields.
Proof.
  induction x as [|c rest [init [line [field [fields [Hx [Hq Hxq]]]]]]].
  - pose proof (split_not_nil LF q) as Hne.
    destruct (split LF q) as [|field fields] eqn:E; [congruence|].
    exists [], [], field, fields. simpl. now rewrite E.
  - cbn [app split]. destruct (c =? LF)%N.
    + exists ([] :: init), line, field, fields. now rewrite Hx, Hxq.
    + rewrite Hx, Hxq. destruct init as [|first init].
      * exists [], (c :: line), field, fields. now simpl.
      * exists ((c :: first) :: init), line, field, fields. now simpl.
Qed.

Lemma split_fields_all (f : char -> bool) (sep : char) (s : pystr) :
  forallb f s = true -> forallb (forallb f) (split sep s) = true.
Proof.
  induction s as [|c rest IH]; simpl; [reflexivity|]. intros H.
  apply andb_true_iff in H as [Hc Hr]. specialize (IH Hr).
  destruct (c =? sep)%N; [exact IH|].
  destruct (split sep rest) as [|field fields]; simpl in *; now rewrite Hc.
Qed.

Lemma trimmed_lines_blank (lines : list pystr) :
  forallb (forallb isspace) lines = true -> trimmed_lines lines = [].
Proof.
  induction lines as [|line rest IH]; [reflexivity|]. intros H.
  simpl in H. apply andb_true_iff in H as [Hl Hr].
  unfold trimmed_lines in *. cbn [filter].
  rewrite (strip_all_space line Hl). now apply IH.
Qed.

Lemma trimmed_lines_suffix (x q : pystr) :
  forallb isspace q = true ->
  trimmed_lines (split LF (x ++ q)) = trimmed_lines (split LF x).
Proof.
  intros H.
  destruct (split_app_tail x q) as [init [line [field [fields [Hx [Hq ->]]]]]].
  pose proof (split_fields_all isspace LF q H) as Hall.
  rewrite Hq in Hall. simpl in Hall. apply andb_true_iff in Hall as [Hf Hfs].
  rewrite Hx, !trimmed_lines_app. f_equal.
  change ((line ++ field) :: fields) with ([line ++ field] ++ fields).
  rewrite trimmed_lines_app, (trimmed_lines_blank fields Hfs), app_nil_r.
  unfold trimmed_lines. cbn [filter].
  assert (E : strip (line ++ field) = strip line)
    by now apply strip_by_app_dropped.
  rewrite E. destruct (nonempty (strip line)); cbn [map]; now rewrite ?E.
Qed.

(** X19. The strip of the whole content at line 9 changes nothing: the
    lines the parser works on are the trimmed lines of the text that are
    not blank, so blank lines and indentation do not matter, wherever they
    stand. *)
Theorem lines_are_the_trimmed_nonblank_lines (content : pystr) :
  lines_of content = trimmed_lines (split LF content).
Proof.
  destruct (strip_by_split isspace content) as [p [q [Hc [Hp Hq]]]].
  fold (strip content) in Hc.
  change (lines_of content) with (trimmed_lines (split LF (strip content))).
  rewrite Hc at 2.
  rewrite trimmed_lines_prefix by assumption.
  now rewrite trimmed_lines_suffix by assumption.
Qed.


(** ** Texts free of line boundaries *)

Lemma forallb_lstrip_by (f drop : char -> bool) (s : pystr) :
  forallb f s = true -> forallb f (lstrip_by drop s) = true.
Proof.
  induction s as [|c rest IH]; simpl; [reflexivity|]. intros H.
  destruct (drop c); [|exact H].
  apply andb_true_iff in H as [_ H]. now apply IH.
Qed.

Lemma forallb_strip_by (f drop : char -> bool) (s : pystr) :
  forallb f s = true -> forallb f (strip_by drop s) = true.
Proof.
  intros H. unfold strip_by. rewrite forallb_rev.
  apply forallb_lstrip_by. rewrite forallb_rev. now apply forallb_lstrip_by.
Qed.

Lemma breaks_to_spaces_cons (c : char) (rest : pystr) :
  breaks_to_spaces (c :: rest)
  = if is_linebreak c then
      match rest with
      | c' :: rest' =>
          if (c =? CR)%N && (c' =? LF)%N then SPACE :: breaks_to_spaces rest'
          else SPACE :: breaks_to_spaces rest
      | [] => SPACE :: breaks_to_spaces rest
      end
    else c :: breaks_to_spaces rest.
Proof. reflexivity. Qed.

Lemma breaks_to_spaces_single_line (n : nat) :
  forall s : pystr, length s <= n -> single_line (breaks_to_spaces s) = true.
Proof.
  induction n as [|n IH]; intros s Hlen.
  - destruct s; [reflexivity|simpl in Hlen; lia].
  - destruct s as [|c rest]; [reflexivity|]. simpl in Hlen.
    rewrite breaks_to_spaces_cons. destruct (is_linebreak c) eqn:E.
    + destruct rest as [|c' rest']; [reflexivity|].
      destruct ((c =? CR)%N && (c' =? LF)%N).
      * change (single_line (breaks_to_spaces rest') = true).
        apply IH. simpl in Hlen. lia.
      * change (single_line (breaks_to_spaces (c' :: rest')) = true).
        apply IH. lia.
    + unfold single_line. cbn [forallb]. rewrite E.
      apply (IH rest). lia.
Qed.


(** * What python-docx can write *)

Lemma xml_compatible_app (s t : pystr) :
  xml_compatible (s ++ t) = xml_compatible s && xml_compatible t.
Proof. apply forallb_app. Qed.

Lemma xml_compatible_strip_by (drop : char -> bool) (s : pystr) :
  xml_compatible s = true -> xml_compatible (strip_by drop s) = true.
Proof. apply forallb_strip_by. Qed.

Lemma cells_of_compatible (line : pystr) :
  xml_compatible line = true -> forallb xml_compatible (cells_of line) = true.
Proof.
  intros H. unfold cells_of. apply forallb_forall. intros cell Hin.
  apply in_map_iff in Hin as [field [<- Hin]].
  apply xml_compatible_strip_by.
  pose proof (split_fields_all xml_char PIPE (strip_chars (py "|") line)
                (xml_compatible_strip_by _ line H)) as Hall.
  rewrite forallb_forall in Hall. now apply Hall.
Qed.

Lemma lines_of_compatible (content : pystr) :
  xml_compatible content = true ->
  forallb xml_compatible (lines_of content) = true.
Proof.
  intros H. unfold lines_of. apply forallb_forall. intros line Hin.
  apply in_map_iff in Hin as [raw [<- Hin]].
  apply filter_In in Hin as [Hin _].
  apply xml_compatible_strip_by.
  pose proof (split_fields_all xml_char LF (strip content)
                (xml_compatible_strip_by _ content H)) as Hall.
  rewrite forallb_forall in Hall. now apply Hall.
Qed.

Lemma fit_compatible (n : nat) (cells : list pystr) :
  forallb xml_compatible cells = true ->
  forallb xml_compatible (fit n cells) = true.
Proof.
  intros H. unfold fit. destruct (n <? length cells).
  - rewrite forallb_forall in *. intros c Hc. apply H.
    rewrite <- (firstn_skipn n cells). apply in_or_app. now left.
  - rewrite forallb_app, H. simpl.
    induction (n - length cells); simpl; auto.
Qed.

Lemma grid_compatible (content : pystr) :
  xml_compatible content = true ->
  forallb (forallb xml_compatible) (grid content) = true.
Proof.
  intros H.
  assert (Hrows : forall cells, In cells (accepted_rows content) ->
                    forallb xml_compatible cells = true).
  { unfold accepted_rows. intros cells Hin.
    apply in_map_iff in Hin as [line [<- Hin]].
    apply filter_In in Hin as [Hin _]. apply cells_of_compatible.
    pose proof (lines_of_compatible content H) as Hall.
    rewrite forallb_forall in Hall. now apply Hall. }
  unfold grid. destruct (accepted_rows content) as [|header rest];
    [reflexivity|].
  cbn [forallb]. rewrite (Hrows header (or_introl eq_refl)).
  apply forallb_forall. intros row Hin.
  apply in_map_iff in Hin as [cells [<- Hin]].
  apply fit_compatible. apply Hrows. now right.
Qed.



Lemma add_paragraph_str (w : world) (s : pystr) (st : style) :
  xml_compatible s = true ->
  add_paragraph w (JStr s) st = Ok (add_block w (Paragraph (JStr s) st)).
Proof.
  intros H. unfold add_paragraph, text_exception. rewrite H.
  now destruct (truthy (JStr s)).
Qed.

Lemma add_paragraph_refused (w : world) (s : pystr) (st : style) :
  xml_compatible s = false -> add_paragraph w (JStr s) st = Raise ValueError.
Proof.
  intros H. unfold add_paragraph, text_exception. rewrite H.
  destruct s; [discriminate H|reflexivity].
Qed.

Lemma add_paragraph_grows (w w' : world) (text : json) (st : style) :
  add_paragraph w text st = Ok w' -> w' = add_block w (Paragraph text st).
Proof.
  unfold add_paragraph. destruct (truthy text).
  - destruct (text_exception text); [discriminate|]. now intros [= <-].
  - now intros [= <-].
Qed.

(** ** Building a table *)

Lemma new_row_length (cols : nat) : length (new_row cols) = cols.
Proof. apply repeat_length. Qed.

Lemma new_row_succ (k : nat) : new_row (S k) = Cell [] false :: new_row k.
Proof. reflexivity. Qed.

Lemma set_text_at (done rest : list cell) (c : cell) (t : pystr) (b : bool) :
  set_text (done ++ c :: rest) (length done) t b
  = if xml_compatible t then Ok (done ++ Cell t b :: rest)
    else Raise ValueError.
Proof.
  induction done as [|d done IH]; simpl; [reflexivity|]. rewrite IH.
  now destruct (xml_compatible t).
Qed.

Lemma fill_row_exact (texts : list pystr) :
  forall (done : list cell) (k : nat),
  fill_row (length done) texts (done ++ new_row (length texts + k))
  = if forallb xml_compatible texts
    then (done ++ data_cells texts ++ new_row k, None)
    else (fst (fill_row (length done) texts
                 (done ++ new_row (length texts + k))),
          Some ValueError).
Proof.
  induction texts as [|t rest IH]; intros done k; [reflexivity|].
  cbn [length Nat.add fill_row forallb]. rewrite new_row_succ, set_text_at.
  destruct (xml_compatible t); [|reflexivity]. cbn [andb].
  specialize (IH (done ++ [Cell t false]) k).
  rewrite length_app, Nat.add_1_r, <- app_assoc in IH. cbn [app] in IH.
  rewrite IH. destruct (forallb xml_compatible rest); [|reflexivity].
  cbn [data_cells map app]. now rewrite <- app_assoc.
Qed.

Lemma fill_header_exact (texts : list pystr) :
  forall (done : list cell) (k : nat),
  fill_header (length done + length texts + k) (length done) texts
    (done ++ new_row (length texts + k))
  = if forallb xml_compatible texts
    then (done ++ header_cells texts ++ new_row k, None)
    else (fst (fill_header (length done + length texts + k) (length done)
                 texts (done ++ new_row (length texts + k))),
          Some ValueError).
Proof.
  induction texts as [|t rest IH]; intros done k; [reflexivity|].
  cbn [length Nat.add fill_header forallb].
  replace (length done <? length done + S (length rest) + k) with true
    by (symmetry; apply Nat.ltb_lt; lia).
  rewrite new_row_succ, set_text_at.
  destruct (xml_compatible t); [|reflexivity]. cbn [andb].
  specialize (IH (done ++ [Cell t true]) k).
  rewrite length_app, Nat.add_1_r, <- app_assoc in IH. cbn [app] in IH.
  replace (length done + S (length rest) + k)
    with (S (length done) + length rest + k) by lia.
  rewrite IH. destruct (forallb xml_compatible rest); [|reflexivity].
  cbn [header_cells map app]. now rewrite <- app_assoc.
Qed.

Lemma add_data_rows_exact (num_cols : nat) (rows_data : list (list pystr)) :
  (forall row, In row rows_data -> length row = num_cols) ->
  forall rows,
  add_data_rows num_cols rows_data rows
  = if forallb (forallb xml_compatible) rows_data
    then (rows ++ map data_cells rows_data, None)
    else (fst (add_data_rows num_cols rows_data rows), Some ValueError).
Proof.
  induction rows_data as [|row_data rest IH]; intros Hlen rows.
  - simpl. now rewrite app_nil_r.
  - cbn [add_data_rows forallb].
    pose proof (Hlen row_data (or_introl eq_refl)) as E. subst num_cols.
    rewrite Nat.eqb_refl.
    pose proof (fill_row_exact row_data [] 0) as H.
    rewrite Nat.add_0_r in H. cbn [length app] in H. rewrite H.
    destruct (forallb xml_compatible row_data); [|reflexivity].
    cbn [new_row repeat andb]. rewrite app_nil_r.
    rewrite IH by (intros row Hin; apply Hlen; now right).
    destruct (forallb (forallb xml_compatible) rest); [|reflexivity].
    cbn [map]. now rewrite <- app_assoc.
Qed.

Lemma build_table_exact (header : list pystr) (rest : list (list pystr)) :
  (forall row, In row rest -> length row = length header) ->
  build_table (length header) (header :: rest)
  = if forallb (forallb xml_compatible) (header :: rest)
    then (header_cells header :: map data_cells rest, None)
    else (fst (build_table (length header) (header :: rest)),
          Some ValueError).
Proof.
  intros Hlen. unfold build_table. cbn [hd tl forallb].
  pose proof (fill_header_exact header [] 0) as H.
  cbn [length Nat.add app] in H. rewrite Nat.add_0_r in H. rewrite H.
  destruct (forallb xml_compatible header); [|reflexivity].
  cbn [new_row repeat andb]. rewrite app_nil_r.
  rewrite add_data_rows_exact by assumption.
  now destruct (forallb (forallb xml_compatible) rest).
Qed.

(** ** Rendering *)


Lemma parse_blank (content : pystr) :
  strip content = [] -> parse_markdown_table content = [].
Proof.
  intros H. unfold parse_markdown_table, lines_of. now rewrite H.
Qed.

Lemma render_table_exact (w : world) (content : pystr) :
  render_table w content
  = match parse_markdown_table content with
    | [] => Ok w
    | header :: rest =>
        if forallb (forallb xml_compatible) (header :: rest)
        then Ok (add_block w (table_of_grid header rest))
        else Raise ValueError
    end.
Proof.
  unfold render_table.
  destruct (nonempty content && nonempty (strip content)) eqn:E.
  - pose proof (grid_rows content) as Hrows.
    pose proof (grid_compatible content) as Hgrid.
    rewrite <- parse_markdown_table_grid in Hrows, Hgrid.
    destruct (parse_markdown_table content) as [|header rest]; [reflexivity|].
    cbn [hd] in *.
    destruct (Hrows header (or_introl eq_refl)) as [_ [Hne _]].
    replace (nonempty (header :: rest) && nonempty header
             && (0 <? length header)) with true
      by (destruct header; [congruence|reflexivity]).
    cbv zeta. rewrite build_table_exact
      by (intros row Hin; now apply (Hrows row (or_intror Hin))).
    destruct (forallb (forallb xml_compatible) (header :: rest)) eqn:Hc;
      [reflexivity|].
    apply add_paragraph_refused.
    destruct (xml_compatible content) eqn:Hx;
      [specialize (Hgrid eq_refl); congruence|].
    rewrite !xml_compatible_app, Hx. now rewrite !andb_false_r.
  - rewrite parse_blank; [reflexivity|].
    destruct content; [reflexivity|]. simpl in E. now destruct (strip _).
Qed.

(** Enters the body of [render_element] once the two [get]s are known. *)
Ltac enter_render Hty Hc :=
  unfold render_element; rewrite Hty, Hc; cbv beta iota delta [bind].

Section Elements.

Variable str_of_value : json -> pystr.




(** C7, as amended. Every line break of a paragraph's content (the pair
    CR LF being one) becomes one space and the result is trimmed; when
    python-docx can write that text, a non-empty text is appended as
    exactly one Normal block and an empty one adds nothing. *)
Theorem writable_paragraph_collapsed (w : world) (element : json) (c : pystr) :
  get element (py "type") JNull = Ok (JStr (py "paragraph")) ->
  get element (py "content") (JStr []) = Ok (JStr c) ->
  xml_compatible (collapse c) = true ->
  render_element str_of_value w element
  = Ok (if nonempty (collapse c)
        then add_block w (Paragraph (JStr (collapse c)) Normal)
        else w).
Proof.
  intros Hty Hc Hx. enter_render Hty Hc.
  change (eq_str (JStr (py "paragraph")) (py "heading_1")) with false.
  change (eq_str (JStr (py "paragraph")) (py "heading_2")) with false.
  change (eq_str (JStr (py "paragraph")) (py "heading_3")) with false.
  change (eq_str (JStr (py "paragraph")) (py "paragraph")) with true.
  cbv iota. rewrite join_splitlines_collapse.
  destruct (nonempty (collapse c)); [|reflexivity].
  now apply add_paragraph_str.
Qed.

(** C8. A table element whose content is blank, or whose content parses
    to a grid without rows, adds nothing to the document. *)
Theorem blank_or_empty_table_adds_nothing
  (w : world) (element : json) (c : pystr) :
  get element (py "type") JNull = Ok (JStr (py "table_markdown")) ->
  get element (py "content") (JStr []) = Ok (JStr c) ->
  strip c = [] \/ parse_markdown_table c = [] ->
  render_element str_of_value w element = Ok w.
Proof.
  intros Hty Hc H. enter_render Hty Hc.
  change (eq_str (JStr (py "table_markdown")) (py "heading_1")) with false.
  change (eq_str (JStr (py "table_markdown")) (py "heading_2")) with false.
  change (eq_str (JStr (py "table_markdown")) (py "heading_3")) with false.
  change (eq_str (JStr (py "table_markdown")) (py "paragraph")) with false.
  change (eq_str (JStr (py "table_markdown")) (py "table_markdown")) with true.
  cbv iota. rewrite render_table_exact.
  destruct H as [H|H]; [now rewrite parse_blank|now rewrite H].
Qed.

(** C9, as amended. An element whose type is none of the five recognised
    values and whose content is non-empty hands python-docx the marker
    naming the type followed by the content; when python-docx can write
    that text, exactly one Normal block with it is added, and both the type
    string and the content occur in it. *)
Theorem writable_unknown_type_kept_visible
  (w : world) (element ty content : json) :
  get element (py "type") JNull = Ok ty ->
  recognised ty = false ->
  get element (py "content") (JStr []) = Ok content ->
  truthy content = true ->
  xml_compatible (py "[Unknown type: " ++ format_field str_of_value ty
                    ++ py "] " ++ format_field str_of_value content) = true ->
  exists text,
    render_element str_of_value w element
    = Ok (add_block w (Paragraph (JStr text) Normal))
    /\ text = py "[Unknown type: " ++ format_field str_of_value ty
              ++ py "] " ++ format_field str_of_value content
    /\ occurs (format_field str_of_value ty) text
    /\ occurs (format_field str_of_value content) text.
Proof.
  intros Hty Hrec Hc Hne Hx. unfold recognised in Hrec.
  repeat (apply orb_false_iff in Hrec as [Hrec ?]).
  eexists. split; [|split; [reflexivity|split]].
  - enter_render Hty Hc.
    repeat match goal with E : eq_str ty _ = false |- _ => rewrite E; clear E end.
    rewrite Hne. now apply add_paragraph_str.
  - exists (py "[Unknown type: "), (py "] " ++ format_field str_of_value content).
    reflexivity.
  - exists (py "[Unknown type: " ++ format_field str_of_value ty ++ py "] "), [].
    now rewrite app_nil_r, <- !app_assoc.
Qed.

(** C10, as amended. A heading element whose content is a string
    python-docx can write adds exactly one block of its heading style
    holding the content as it is, also when the content is the empty
    string; an element of any other type whose content is the empty string
    adds nothing. *)
Theorem writable_heading_still_a_block
  (w : world) (element ty : json) (c : pystr) :
  get element (py "type") JNull = Ok ty ->
  get element (py "content") (JStr []) = Ok (JStr c) ->
  xml_compatible c = true ->
  (eq_str ty (py "heading_1") = true ->
   render_element str_of_value w element
   = Ok (add_block w (Paragraph (JStr c) Heading1)))
  /\ (eq_str ty (py "heading_2") = true ->
      render_element str_of_value w element
      = Ok (add_block w (Paragraph (JStr c) Heading2)))
  /\ (eq_str ty (py "heading_3") = true ->
      render_element str_of_value w element
      = Ok (add_block w (Paragraph (JStr c) Heading3)))
  /\ (is_heading ty = false -> c = [] ->
      render_element str_of_value w element = Ok w).
Proof.
  intros Hty Hc Hx. enter_render Hty Hc.
  repeat split.
  - intros ->. now apply add_paragraph_str.
  - intros H. apply eq_str_true in H. subst ty. now apply add_paragraph_str.
  - intros H. apply eq_str_true in H. subst ty. now apply add_paragraph_str.
  - intros H ->. unfold is_heading in H.
    repeat (apply orb_false_iff in H as [H ?]).
    repeat match goal with E : eq_str ty _ = false |- _ => rewrite E; clear E end.
    destruct (eq_str ty (py "paragraph")); [reflexivity|].
    destruct (eq_str ty (py "table_markdown")); reflexivity.
Qed.

(** X7. A table element with a string content adds nothing when the grid
    of that content has no row; otherwise, when python-docx can write every
    cell, it adds exactly one table that shows the grid: as many columns as
    the header has cells, the header row bold, every other row of the grid
    a data row, none dropped. When some cell cannot be written the handler
    prints, its fallback paragraph is refused for the same character, and
    [ValueError] leaves the call. *)
Theorem table_shows_the_grid_or_raises
  (w : world) (element : json) (c : pystr) :
  get element (py "type") JNull = Ok (JStr (py "table_markdown")) ->
  get element (py "content") (JStr []) = Ok (JStr c) ->
  render_element str_of_value w element
  = match parse_markdown_table c with
    | [] => Ok w
    | header :: rest =>
        if forallb (forallb xml_compatible) (header :: rest)
        then Ok (add_block w (table_of_grid header rest))
        else Raise ValueError
    end.
Proof.
  intros Hty Hc. enter_render Hty Hc.
  change (eq_str (JStr (py "table_markdown")) (py "heading_1")) with false.
  change (eq_str (JStr (py "table_markdown")) (py "heading_2")) with false.
  change (eq_str (JStr (py "table_markdown")) (py "heading_3")) with false.
  change (eq_str (JStr (py "table_markdown")) (py "paragraph")) with false.
  change (eq_str (JStr (py "table_markdown")) (py "table_markdown")) with true.
  cbv iota. apply render_table_exact.
Qed.

Lemma render_element_grows (w w' : world) (element : json) :
  render_element str_of_value w element = Ok w' ->
  printed w' = printed w
  /\ exists blocks, body w' = body w ++ blocks /\ length blocks <= 1.
Proof.
  unfold render_element.
  destruct (get element (py "type") JNull) as [ty|]; [|discriminate].
  destruct (get element (py "content") (JStr [])) as [c|]; [|discriminate].
  cbv beta iota delta [bind].
  assert (Hone : forall text st, add_paragraph w text st = Ok w' ->
            printed w' = printed w
            /\ exists blocks, body w' = body w ++ blocks /\ length blocks <= 1).
  { intros text st H. apply add_paragraph_grows in H. subst w'.
    split; [reflexivity|]. eexists. split; [reflexivity|simpl; lia]. }
  assert (Hnone : Ok w = Ok w' ->
            printed w' = printed w
            /\ exists blocks, body w' = body w ++ blocks /\ length blocks <= 1).
  { intros H. injection H as <-. split; [reflexivity|].
    exists []. split; [now rewrite app_nil_r|simpl; lia]. }
  destruct (eq_str ty (py "heading_1")); [apply Hone|].
  destruct (eq_str ty (py "heading_2")); [apply Hone|].
  destruct (eq_str ty (py "heading_3")); [apply Hone|].
  destruct (eq_str ty (py "paragraph")).
  { destruct c; try discriminate.
    destruct (nonempty _); [apply Hone|apply Hnone]. }
  destruct (eq_str ty (py "table_markdown")).
  { destruct c; try (destruct (truthy _); [discriminate|apply Hnone]).
    rewrite render_table_exact.
    destruct (parse_markdown_table s) as [|header rest]; [apply Hnone|].
    destruct (forallb _ _); [|discriminate].
    intros H. injection H as <-. split; [reflexivity|].
    eexists. split; [reflexivity|simpl; lia]. }
  destruct (truthy c); [apply Hone|apply Hnone].
Qed.

(** X8. Whatever the elements are, when the loop ends without an exception
    it has added at most one block per element and has printed nothing: a
    document never holds more blocks than the input has elements, and no
    table ever falls back to its raw text. *)
Theorem at_most_one_block_per_element (elements : list json) :
  forall w w', render_elements str_of_value w elements = Ok w' ->
  printed w' = printed w
  /\ exists blocks, body w' = body w ++ blocks
                    /\ length blocks <= length elements.
Proof.
  induction elements as [|element rest IH]; intros w w' H; simpl in H.
  - injection H as <-. split; [reflexivity|].
    exists []. split; [now rewrite app_nil_r|simpl; lia].
  - destruct (render_element str_of_value w element) as [w1|] eqn:E;
      [|discriminate].
    cbv beta iota delta [bind] in H.
    destruct (render_element_grows w w1 element E) as [Hp [b1 [Hb1 Hl1]]].
    destruct (IH w1 w' H) as [Hp' [b2 [Hb2 Hl2]]].
    split; [congruence|]. exists (b1 ++ b2). split.
    + now rewrite Hb2, Hb1, app_assoc.
    + rewrite length_app. simpl. lia.
Qed.

Lemma render_elements_non_object (elements : list json) :
  existsb (fun element => negb (is_object element)) elements = true ->
  forall w, exists e, render_elements str_of_value w elements = Raise e.
Proof.
  induction elements as [|element rest IH]; [discriminate|].
  intros H w. simpl in H. simpl.
  destruct (render_element str_of_value w element) as [w1|e] eqn:E.
  - cbv beta iota delta [bind]. apply IH.
    destruct element; try discriminate E. exact H.
  - exists e. reflexivity.
Qed.

(** X10. A paragraph element hands python-docx a text that holds no line
    boundary of any kind and has nothing left to trim, and hands it
    nothing when that text is empty; when python-docx can write the text,
    it becomes exactly one Normal block. *)
Theorem paragraph_text_handed_over
  (w : world) (element : json) (c : pystr) :
  get element (py "type") JNull = Ok (JStr (py "paragraph")) ->
  get element (py "content") (JStr []) = Ok (JStr c) ->
  exists text,
    render_element str_of_value w element
    = (if nonempty text then add_paragraph w (JStr text) Normal else Ok w)
    /\ single_line text = true
    /\ strip text = text
    /\ (xml_compatible text = true ->
        add_paragraph w (JStr text) Normal
        = Ok (add_block w (Paragraph (JStr text) Normal))).
Proof.
  intros Hty Hc. exists (strip (join (py " ") (splitlines c))).
  split; [|split; [|split]].
  - enter_render Hty Hc.
    change (eq_str (JStr (py "paragraph")) (py "heading_1")) with false.
    change (eq_str (JStr (py "paragraph")) (py "heading_2")) with false.
    change (eq_str (JStr (py "paragraph")) (py "heading_3")) with false.
    change (eq_str (JStr (py "paragraph")) (py "paragraph")) with true.
    reflexivity.
  - rewrite join_splitlines_collapse. unfold collapse, strip.
    apply forallb_strip_by.
    now apply (breaks_to_spaces_single_line (length c)).
  - apply strip_by_idempotent.
  - apply add_paragraph_str.
Qed.

End Elements.

Lemma writable_paragraph_collapsed_witness :
  get (element_of (py "paragraph") two_lines) (py "type") JNull
  = Ok (JStr (py "paragraph"))
  /\ get (element_of (py "paragraph") two_lines) (py "content") (JStr [])
     = Ok (JStr two_lines)
  /\ xml_compatible (collapse two_lines) = true
  /\ render_element no_str (World [] []) (element_of (py "paragraph") two_lines)
     = Ok (World [Paragraph (JStr (py "line one line two")) Normal] []).
Proof.
  split; [reflexivity|split; [reflexivity|split; [reflexivity|]]].
  exact (writable_paragraph_collapsed no_str (World [] [])
           (element_of (py "paragraph") two_lines) two_lines
           eq_refl eq_refl eq_refl).
Defined.

(** C7 as the specification states it fails on a paragraph whose text holds
    a control character: the text is handed over, python-docx refuses it,
    and no block is appended. *)
Lemma paragraph_with_control_raises :
  collapse with_control = with_control
  /\ nonempty (collapse with_control) = true
  /\ render_element no_str (World [] [])
       (element_of (py "paragraph") with_control)
     = Raise ValueError.
Proof. repeat split. Qed.

Lemma blank_or_empty_table_adds_nothing_witness :
  (strip [] = []
   /\ render_element no_str (World [] [])
        (element_of (py "table_markdown") [])
      = Ok (World [] []))
  /\ (strip (py "  ") = []
      /\ render_element no_str (World [] [])
           (element_of (py "table_markdown") (py "  "))
         = Ok (World [] []))
  /\ (parse_markdown_table (py "no table here") = []
      /\ render_element no_str (World [] [])
           (element_of (py "table_markdown") (py "no table here"))
         = Ok (World [] [])).
Proof.
  split; [|split]; (split; [reflexivity|]).
  - exact (blank_or_empty_table_adds_nothing no_str (World [] [])
             (element_of (py "table_markdown") []) []
             eq_refl eq_refl (or_introl eq_refl)).
  - exact (blank_or_empty_table_adds_nothing no_str (World [] [])
             (element_of (py "table_markdown") (py "  ")) (py "  ")
             eq_refl eq_refl (or_introl eq_refl)).
  - exact (blank_or_empty_table_adds_nothing no_str (World [] [])
             (element_of (py "table_markdown") (py "no table here"))
             (py "no table here")
             eq_refl eq_refl (or_intror eq_refl)).
Defined.


Lemma writable_unknown_type_kept_visible_witness :
  recognised (JStr (py "footnote")) = false
  /\ truthy (JStr (py "x")) = true
  /\ xml_compatible (py "[Unknown type: footnote] x") = true
  /\ exists text,
       render_element no_str (World [] []) (element_of (py "footnote") (py "x"))
       = Ok (World [Paragraph (JStr text) Normal] [])
       /\ text = py "[Unknown type: footnote] x"
       /\ occurs (py "footnote") text
       /\ occurs (py "x") text.
Proof.
  split; [reflexivity|split; [reflexivity|split; [reflexivity|]]].
  exact (writable_unknown_type_kept_visible no_str (World [] [])
           (element_of (py "footnote") (py "x"))
           (JStr (py "footnote")) (JStr (py "x"))
           eq_refl eq_refl eq_refl eq_refl eq_refl).
Defined.

(** C9 as the specification states it fails on an unknown element whose
    content holds a control character: nothing is emitted, the call
    raises. *)
Lemma unknown_type_with_control_raises :
  recognised (JStr (py "footnote")) = false
  /\ truthy (JStr with_control) = true
  /\ render_element no_str (World [] [])
       (element_of (py "footnote") with_control)
     = Raise ValueError.
Proof. repeat split. Qed.

Lemma writable_heading_still_a_block_witness :
  xml_compatible [] = true
  /\ render_element no_str (World [] []) (element_of (py "heading_2") [])
     = Ok (World [Paragraph (JStr []) Heading2] [])
  /\ render_element no_str (World [] []) (element_of (py "paragraph") [])
     = Ok (World [] []).
Proof.
  split; [reflexivity|split].
  - exact (proj1 (proj2 (writable_heading_still_a_block no_str (World [] [])
                           (element_of (py "heading_2") [])
                           (JStr (py "heading_2")) []
                           eq_refl eq_refl eq_refl)) eq_refl).
  - exact (proj2 (proj2 (proj2 (writable_heading_still_a_block no_str
                                  (World [] [])
                                  (element_of (py "paragraph") [])
                                  (JStr (py "paragraph")) []
                                  eq_refl eq_refl eq_refl))) eq_refl eq_refl).
Defined.

(** C10 as the specification states it fails on a heading whose content
    holds a form feed: no heading block is appended, the call raises. *)
Lemma heading_with_form_feed_raises :
  render_element no_str (World [] []) (element_of (py "heading_1") two_pages)
  = Raise ValueError.
Proof. reflexivity. Qed.

Lemma table_shows_the_grid_or_raises_witness :
  get (element_of (py "table_markdown") table_text) (py "type") JNull
  = Ok (JStr (py "table_markdown"))
  /\ get (element_of (py "table_markdown") table_text) (py "content") (JStr [])
     = Ok (JStr table_text)
  /\ render_element no_str (World [] []) (element_of (py "table_markdown") table_text)
     = Ok (World
             [Table 2
                [[Cell (py "A") true; Cell (py "B") true];
                 [Cell (py "---") false; Cell (py "---") false];
                 [Cell (py "1") false; Cell (py "2") false]]]
             []).
Proof.
  split; [reflexivity|split; [reflexivity|]].
  exact (table_shows_the_grid_or_raises no_str (World [] [])
           (element_of (py "table_markdown") table_text) table_text
           eq_refl eq_refl).
Defined.

Lemma at_most_one_block_per_element_witness :
  render_elements no_str (World [] []) end_to_end_elements
  = Ok (World (concat (map (contribution no_str) end_to_end_elements)) [])
  /\ (printed (World (concat (map (contribution no_str) end_to_end_elements)) [])
      = printed (World [] [])
      /\ exists blocks,
           body (World (concat (map (contribution no_str) end_to_end_elements)) [])
           = body (World [] []) ++ blocks
           /\ length blocks <= length end_to_end_elements).
Proof.
  split; [reflexivity|].
  exact (at_most_one_block_per_element no_str end_to_end_elements
           (World [] [])
           (World (concat (map (contribution no_str) end_to_end_elements)) [])
           eq_refl).
Defined.


Lemma paragraph_text_handed_over_witness :
  get (element_of (py "paragraph") two_lines) (py "type") JNull
  = Ok (JStr (py "paragraph"))
  /\ get (element_of (py "paragraph") two_lines) (py "content") (JStr [])
     = Ok (JStr two_lines)
  /\ exists text,
       render_element no_str (World [] []) (element_of (py "paragraph") two_lines)
       = (if nonempty text
          then add_paragraph (World [] []) (JStr text) Normal
          else Ok (World [] []))
       /\ single_line text = true
       /\ strip text = text
       /\ (xml_compatible text = true ->
           add_paragraph (World [] []) (JStr text) Normal
           = Ok (add_block (World [] []) (Paragraph (JStr text) Normal))).
Proof.
  split; [reflexivity|split; [reflexivity|]].
  exact (paragraph_text_handed_over no_str (World [] [])
           (element_of (py "paragraph") two_lines) two_lines eq_refl eq_refl).
Defined.

(** ** Assembling a document *)

Lemma has_elements_list_object (fields : list (pystr * json)) :
  has_elements_list (JObj fields)
  = Ok match lookup (py "document_elements") fields with
       | Some (JArr _) => true
       | _ => false
       end.
Proof.
  unfold has_elements_list, contains_key, getitem.
  destruct (lookup (py "document_elements") fields) as [v|]; [|reflexivity].
  now destruct v.
Qed.

Section Assembly.

Variable str_of_value : json -> pystr.
Variable save_succeeds : document -> bool.

(** C2. The end-to-end input of section 8 yields the Heading 1 block
    "Title" followed by a table of two columns and three rows: the bold
    header, then the separator line as a data row, then the data row. *)
Theorem end_to_end_table_has_three_rows :
  create_docx_from_structured_data str_of_value save_succeeds
    (Loaded end_to_end)
  = Finished
      (save save_succeeds
         (World
            [Paragraph (JStr (py "Title")) Heading1;
             Table 2
               [[Cell (py "A") true; Cell (py "B") true];
                [Cell (py "---") false; Cell (py "---") false];
                [Cell (py "1") false; Cell (py "2") false]]]
            [])).
Proof. vm_compute. reflexivity. Qed.

(** C4. A loaded value that is a number, a boolean or [None] has no
    "document_elements" key, and yet the call does not return [False]:
    the membership test raises [TypeError], which nothing catches. The
    same happens on a list that holds the key as an item and on a string
    that holds it as a substring, at the subscript. *)
Theorem top_level_scalar_raises :
  create_docx_from_structured_data str_of_value save_succeeds (Loaded (JInt 5))
  = Uncaught TypeError
  /\ (forall n, create_docx_from_structured_data str_of_value save_succeeds
                  (Loaded (JInt n)) = Uncaught TypeError)
  /\ (forall x, create_docx_from_structured_data str_of_value save_succeeds
                  (Loaded (JFloat x)) = Uncaught TypeError)
  /\ (forall b, create_docx_from_structured_data str_of_value save_succeeds
                  (Loaded (JBool b)) = Uncaught TypeError)
  /\ create_docx_from_structured_data str_of_value save_succeeds (Loaded JNull)
     = Uncaught TypeError
  /\ create_docx_from_structured_data str_of_value save_succeeds
       (Loaded (JArr [JStr (py "document_elements")]))
     = Uncaught TypeError
  /\ create_docx_from_structured_data str_of_value save_succeeds
       (Loaded (JStr (py "document_elements")))
     = Uncaught TypeError.
Proof. repeat split. Qed.

(** X11. On a loaded [dict] the validation is as the specification has
    it: the call returns [False] with the key message and writes no file
    exactly when the key is absent or is not bound to a list. *)
Lemma validation_of_objects (fields : list (pystr * json)) :
  create_docx_from_structured_data str_of_value save_succeeds
    (Loaded (JObj fields))
  = Finished (Run false [MsgKeyNotFound] None)
  <-> (forall items, lookup (py "document_elements") fields <> Some (JArr items)).
Proof.
  unfold create_docx_from_structured_data.
  rewrite has_elements_list_object. unfold get.
  destruct (lookup (py "document_elements") fields) as [v|] eqn:E.
  - destruct v; try (split; [intros _ items; discriminate|reflexivity]).
    split; [|intros H; now destruct (H items)].
    cbv beta iota delta [bind].
    destruct (render_elements str_of_value (World [] []) items) as [w|e];
      [|discriminate].
    unfold save. destruct (save_succeeds (body w)); cbv iota;
      [discriminate|].
    intros H. injection H as H. exfalso.
    destruct (printed w) as [|m [|m' ms]]; discriminate H.
  - split; [intros _ items; discriminate|reflexivity].
Qed.

Lemma malformed_json_fails :
  create_docx_from_structured_data str_of_value save_succeeds JSONDecodeError
  = Finished (Run false [MsgDecodeError] None).
Proof. reflexivity. Qed.

Lemma missing_key_fails :
  create_docx_from_structured_data str_of_value save_succeeds (Loaded foo_only)
  = Finished (Run false [MsgKeyNotFound] None).
Proof. reflexivity. Qed.


(** X9. When any element of the list is not an object, the call ends in an
    uncaught exception and writes no file, whatever the other elements are
    and however many were rendered before it. *)
Theorem non_object_element_saves_nothing (data : json) (elements : list json) :
  has_elements_list data = Ok true ->
  get data (py "document_elements") (JArr []) = Ok (JArr elements) ->
  existsb (fun element => negb (is_object element)) elements = true ->
  exists e,
    create_docx_from_structured_data str_of_value save_succeeds (Loaded data)
    = Uncaught e.
Proof.
  intros Hvalid Hget Hbad. unfold create_docx_from_structured_data.
  rewrite Hvalid, Hget. cbv beta iota delta [bind].
  destruct (render_elements_non_object str_of_value elements Hbad (World [] []))
    as [e ->].
  now exists e.
Qed.

End Assembly.



Lemma non_object_element_saves_nothing_witness :
  has_elements_list
    (JObj [(py "document_elements",
            JArr [element_of (py "heading_1") (py "Title"); JStr (py "stray")])])
  = Ok true
  /\ existsb (fun element => negb (is_object element))
       [element_of (py "heading_1") (py "Title"); JStr (py "stray")] = true
  /\ exists e,
       create_docx_from_structured_data no_str disk_ok
         (Loaded
            (JObj [(py "document_elements",
                    JArr [element_of (py "heading_1") (py "Title");
                          JStr (py "stray")])]))
       = Uncaught e.
Proof.
  split; [reflexivity|split; [reflexivity|]].
  exact (non_object_element_saves_nothing no_str disk_ok
           (JObj [(py "document_elements",
                   JArr [element_of (py "heading_1") (py "Title");
                         JStr (py "stray")])])
           [element_of (py "heading_1") (py "Title"); JStr (py "stray")]
           eq_refl eq_refl eq_refl).
Defined.
(** ** Validation of a top level that is not an object *)

Lemma is_prefix_spec (p s : pystr) :
  is_prefix p s = true <-> exists t, s = p ++ t.
Proof.
  revert s. induction p as [|a p IH]; intros s; simpl.
  - split; [intros _; now exists s|reflexivity].
  - destruct s as [|b s]; [split; [discriminate|intros [t H]; discriminate]|].
    rewrite andb_true_iff, IH, N.eqb_eq. split.
    + intros [-> [t ->]]. now exists t.
    + intros [t H]. injection H as -> ->. split; [reflexivity|now exists t].
Qed.

Lemma contains_occurs (s p : pystr) : contains s p = true <-> occurs p s.
Proof.
  unfold occurs. induction s as [|c s IH].
  - simpl. rewrite orb_false_r, is_prefix_spec. split.
    + intros [t H]. now exists [], t.
    + intros [before [after H]]. destruct before; [now exists after|discriminate].
  - cbn [contains]. rewrite orb_true_iff, is_prefix_spec, IH. split.
    + intros [[t H]|[before [after H]]].
      * now exists [], t.
      * exists (c :: before), after. simpl. now rewrite H.
    + intros [before [after H]]. destruct before as [|b before].
      * left. now exists after.
      * right. injection H as _ H. now exists before, after.
Qed.

Lemma existsb_eq_str (key : pystr) (items : list json) :
  existsb (fun x => eq_str x key) items = true <-> In (JStr key) items.
Proof.
  rewrite existsb_exists. split.
  - intros [x [Hin H]]. apply eq_str_true in H. now subst x.
  - intros H. exists (JStr key). split; [exact H|]. simpl. now apply eqb_eq.
Qed.

Section TopLevel.

Variable str_of_value : json -> pystr.
Variable save_succeeds : document -> bool.

(** X12. On a top level that is a list or a string the call returns
    [False] with the key message and writes no file, unless the key is an
    item of the list or occurs in the string: then the subscript of line 34
    raises [TypeError]. *)
Theorem top_level_list_or_string :
  (forall items,
     In (JStr (py "document_elements")) items ->
     create_docx_from_structured_data str_of_value save_succeeds
       (Loaded (JArr items)) = Uncaught TypeError)
  /\ (forall items,
        ~ In (JStr (py "document_elements")) items ->
        create_docx_from_structured_data str_of_value save_succeeds
          (Loaded (JArr items)) = Finished (Run false [MsgKeyNotFound] None))
  /\ (forall s,
        occurs (py "document_elements") s ->
        create_docx_from_structured_data str_of_value save_succeeds
          (Loaded (JStr s)) = Uncaught TypeError)
  /\ (forall s,
        ~ occurs (py "document_elements") s ->
        create_docx_from_structured_data str_of_value save_succeeds
          (Loaded (JStr s)) = Finished (Run false [MsgKeyNotFound] None)).
Proof.
  unfold create_docx_from_structured_data, has_elements_list, contains_key.
  cbv beta iota delta [bind].
  repeat split.
  - intros items H. apply existsb_eq_str in H. now rewrite H.
  - intros items H.
    destruct (existsb _ items) eqn:E; [|reflexivity].
    now apply existsb_eq_str in E.
  - intros s H. apply contains_occurs in H. now rewrite H.
  - intros s H.
    destruct (contains s _) eqn:E; [|reflexivity].
    now apply contains_occurs in E.
Qed.

End TopLevel.

Lemma top_level_list_or_string_witness :
  ~ In (JStr (py "document_elements")) [element_of (py "paragraph") (py "text")]
  /\ create_docx_from_structured_data no_str disk_ok
       (Loaded (JArr [element_of (py "paragraph") (py "text")]))
     = Finished (Run false [MsgKeyNotFound] None).
Proof.
  assert (H : ~ In (JStr (py "document_elements"))
                [element_of (py "paragraph") (py "text")])
    by (intros [H|[]]; discriminate H).
  split; [exact H|].
  exact (proj1 (proj2 (top_level_list_or_string no_str disk_ok))
           [element_of (py "paragraph") (py "text")] H).
Defined.

(** * The batch driver *)

(** ** Output names *)

Lemma rfind_from_lacks (c : char) (s : pystr) :
  lacks c s = true -> forall i, rfind_from c s i = (-1)%Z.
Proof.
  induction s as [|x rest IH]; simpl; [reflexivity|]. intros H i.
  apply andb_true_iff in H as [Hx Hr]. apply negb_true_iff in Hx.
  now rewrite (IH Hr), Hx.
Qed.

Lemma rfind_from_last (c : char) (s t : pystr) :
  lacks c t = true ->
  forall i, (0 <= i)%Z ->
  rfind_from c (s ++ c :: t) i = (i + Z.of_nat (length s))%Z.
Proof.
  intros Ht. induction s as [|x rest IH]; intros i Hi.
  - simpl. rewrite (rfind_from_lacks c t Ht), N.eqb_refl. simpl. lia.
  - cbn [app rfind_from length]. rewrite IH by lia.
    replace (0 <=? i + 1 + Z.of_nat (length rest))%Z with true
      by (symmetry; apply Z.leb_le; lia).
    lia.
Qed.

Lemma dots_then_dot (k : nat) (ext : pystr) :
  repeat DOT (S k) ++ ext = repeat DOT k ++ DOT :: ext.
Proof.
  cbn [repeat]. rewrite repeat_cons, <- app_assoc. reflexivity.
Qed.

Lemma rfind_dots (k : nat) (ext : pystr) :
  lacks DOT ext = true ->
  rfind DOT (repeat DOT (S k) ++ ext) = Z.of_nat k.
Proof.
  intros H. unfold rfind.
  rewrite dots_then_dot.
  rewrite rfind_from_last by (trivial; lia). rewrite repeat_length. lia.
Qed.

(** X13. A file name [root.ext] whose root has a character other than a dot
    gets the output name [root.docx]: the last extension alone is replaced,
    whatever its spelling. *)
Theorem output_name_replaces_extension (root ext : pystr) :
  lacks SLASH root = true -> lacks SLASH ext = true -> lacks DOT ext = true ->
  existsb (fun c => negb (c =? DOT)%N) root = true ->
  docx_filename_of (root ++ DOT :: ext) = root ++ py ".docx".
Proof.
  intros Hroot Hext Hdot Hname. unfold docx_filename_of, splitext.
  assert (Hsep : rfind SLASH (root ++ DOT :: ext) = (-1)%Z).
  { apply rfind_from_lacks. rewrite lacks_app, Hroot. simpl. exact Hext. }
  assert (Hlast : rfind DOT (root ++ DOT :: ext) = Z.of_nat (length root))
    by (unfold rfind; rewrite rfind_from_last by (trivial; lia); lia).
  rewrite Hsep, Hlast.
  replace (-1 <? Z.of_nat (length root))%Z with true
    by (symmetry; apply Z.ltb_lt; lia).
  unfold slice. change (Z.to_nat (-1 + 1)) with 0.
  rewrite Nat2Z.id, Nat.sub_0_r. cbn [skipn].
  rewrite firstn_app, firstn_all, Nat.sub_diag. cbn [firstn].
  now rewrite app_nil_r, Hname.
Qed.

Lemma output_name_replaces_extension_witness :
  lacks SLASH (py "annual.report") = true
  /\ lacks SLASH (py "JSON") = true
  /\ lacks DOT (py "JSON") = true
  /\ existsb (fun c => negb (c =? DOT)%N) (py "annual.report") = true
  /\ docx_filename_of (py "annual.report.JSON") = py "annual.report.docx".
Proof.
  repeat (split; [reflexivity|]).
  exact (output_name_replaces_extension (py "annual.report") (py "JSON")
           eq_refl eq_refl eq_refl eq_refl).
Defined.

(** X14. A file name without a dot, or whose only dots are leading ones,
    has no extension to replace: the output name is the whole name followed
    by [.docx], so the file [.json] is written to [.json.docx]. *)
Theorem output_name_of_dot_file (k : nat) (ext : pystr) :
  lacks SLASH ext = true -> lacks DOT ext = true ->
  docx_filename_of (repeat DOT k ++ ext) = repeat DOT k ++ ext ++ py ".docx".
Proof.
  intros Hsep Hdot. unfold docx_filename_of, splitext.
  assert (Hs : rfind SLASH (repeat DOT k ++ ext) = (-1)%Z).
  { apply rfind_from_lacks. rewrite lacks_app, Hsep, andb_true_r.
    clear. induction k; simpl; auto. }
  rewrite Hs. destruct k as [|k].
  - cbn [repeat app]. unfold rfind. rewrite (rfind_from_lacks DOT ext Hdot).
    reflexivity.
  - rewrite rfind_dots by assumption.
    replace (-1 <? Z.of_nat k)%Z with true by (symmetry; apply Z.ltb_lt; lia).
    unfold slice. change (Z.to_nat (-1 + 1)) with 0.
    rewrite Nat2Z.id, Nat.sub_0_r. cbn [skipn].
    replace (firstn k (repeat DOT (S k) ++ ext)) with (repeat DOT k).
    + replace (existsb (fun c => negb (c =? DOT)%N) (repeat DOT k)) with false
        by (clear; induction k; simpl; auto).
      cbn [fst]. now rewrite <- app_assoc.
    + rewrite dots_then_dot.
      rewrite firstn_app, repeat_length, Nat.sub_diag, firstn_all2
        by (rewrite repeat_length; lia).
      cbn [firstn]. now rewrite app_nil_r.
Qed.

Lemma output_name_of_dot_file_witness :
  lacks SLASH (py "json") = true
  /\ lacks DOT (py "json") = true
  /\ docx_filename_of (py ".json") = py ".json.docx".
Proof.
  repeat (split; [reflexivity|]).
  exact (output_name_of_dot_file 1 (py "json") eq_refl eq_refl).
Defined.

(** ** The loop over the files *)

Lemma keeps_existing_refl (d : disk) : keeps_existing d d.
Proof. intros q _. reflexivity. Qed.

Lemma keeps_existing_trans (d d1 d2 : disk) :
  keeps_existing d d1 -> keeps_existing d1 d2 -> keeps_existing d d2.
Proof.
  intros H1 H2 q Hq. rewrite H2; [now apply H1|]. now rewrite H1.
Qed.

Lemma write_docx_keeps (d : disk) (p : pystr) (doc : document) :
  path_exists d p = false -> keeps_existing d (write_docx d p doc).
Proof.
  intros Hp q Hq. unfold write_docx. cbn [node_at].
  destruct (PyStr.eqb q p) eqn:E; [|reflexivity].
  apply eqb_eq in E. subst q. unfold path_exists in Hp.
  destruct (node_at d p); [discriminate|congruence].
Qed.

Lemma makedirs_keeps (makedirs : disk -> pystr -> option disk)
  (d d' : disk) (p : pystr) :
  adds_directories_only makedirs -> makedirs d p = Some d' ->
  keeps_existing d d'.
Proof.
  intros Hlaw Hmk q Hq. destruct (Hlaw d p d' Hmk q) as [H|[H _]];
    [exact H|congruence].
Qed.

Section DriverFacts.

Variable str_of_value : json -> pystr.
Variable json_loads : pystr -> loads_result.
Variable lower : pystr -> pystr.
Variable makedirs : disk -> pystr -> option disk.
Variable can_save : disk -> pystr -> document -> bool.

Lemma convert_file_keeps (args : arguments) (d : disk) (log : list line)
  (filename : pystr) :
  overwrite args = false ->
  keeps_existing d
    (final_disk
       (convert_file str_of_value json_loads lower can_save args d log filename)).
Proof.
  intros Hov. unfold convert_file.
  destruct (is_json_name lower filename); [|apply keeps_existing_refl].
  cbv zeta. rewrite Hov. cbn [negb]. rewrite andb_true_r.
  destruct (path_exists d _) eqn:E; [apply keeps_existing_refl|].
  destruct (read_text d _); [|apply keeps_existing_refl].
  destruct (nonempty _); [|apply keeps_existing_refl].
  destruct (create_docx_from_structured_data _ _ _) as [r|e];
    [|apply keeps_existing_refl].
  cbn [final_disk]. destruct (saved r); [|apply keeps_existing_refl].
  now apply write_docx_keeps.
Qed.

Lemma convert_files_keeps (args : arguments) (filenames : list pystr) :
  overwrite args = false ->
  forall d log,
  keeps_existing d
    (final_disk
       (convert_files str_of_value json_loads lower can_save args d log filenames)).
Proof.
  intros Hov. induction filenames as [|filename rest IH]; intros d log.
  - apply keeps_existing_refl.
  - cbn [convert_files].
    pose proof (convert_file_keeps args d log filename Hov) as H.
    destruct (convert_file _ _ _ _ _ _ _ _) as [d1 log1|c d1 log1];
      cbn [final_disk] in *; [|exact H].
    apply (keeps_existing_trans d d1); [exact H|apply IH].
Qed.

(** X15. Without the overwrite flag a run changes nothing that was on the
    disk before it: every path that held a file or a directory holds the
    same afterwards, whether the run completes or stops on an exception. *)
Theorem existing_files_survive (args : arguments) (d : disk) :
  adds_directories_only makedirs ->
  overwrite args = false ->
  forall q, node_at d q <> None ->
  node_at
    (final_disk
       (run_json_to_docx_conversion str_of_value json_loads lower makedirs
          can_save args d)) q
  = node_at d q.
Proof.
  intros Hlaw Hov. change (keeps_existing d
    (final_disk (run_json_to_docx_conversion str_of_value json_loads lower
                   makedirs can_save args d))).
  unfold run_json_to_docx_conversion.
  destruct (negb (isdir d _)); [apply keeps_existing_refl|].
  destruct (makedirs d _) as [d1|] eqn:Hmk; [|apply keeps_existing_refl].
  pose proof (convert_files_keeps args
                (listing d1 (input_json_directory args)) Hov d1 []) as H.
  apply (keeps_existing_trans d d1);
    [exact (makedirs_keeps makedirs d d1 _ Hlaw Hmk)|].
  now destruct (convert_files _ _ _ _ _ _ _ _).
Qed.

(** X16. Names that do not end in [.json] once lowered are never read and
    nothing is written for them: the loop over a listing is the loop over
    its [.json] names. *)
Theorem other_names_ignored (args : arguments) (filenames : list pystr) :
  forall d log,
  convert_files str_of_value json_loads lower can_save args d log filenames
  = convert_files str_of_value json_loads lower can_save args d log
      (filter (is_json_name lower) filenames).
Proof.
  induction filenames as [|filename rest IH]; intros d log; [reflexivity|].
  cbn [convert_files filter].
  destruct (is_json_name lower filename) eqn:E.
  - cbn [convert_files].
    destruct (convert_file _ _ _ _ _ _ _ _); [apply IH|reflexivity].
  - unfold convert_file. rewrite E. apply IH.
Qed.

End DriverFacts.


Lemma scalar_raises (str_of_value : json -> pystr)
  (save_succeeds : document -> bool) (v : json) :
  is_scalar v = true ->
  create_docx_from_structured_data str_of_value save_succeeds (Loaded v)
  = Uncaught TypeError.
Proof. destruct v; try discriminate; reflexivity. Qed.


Section DriverRuns.

Variable str_of_value : json -> pystr.
Variable json_loads : pystr -> loads_result.
Variable lower : pystr -> pystr.
Variable makedirs : disk -> pystr -> option disk.
Variable can_save : disk -> pystr -> document -> bool.




Lemma convert_files_app (args : arguments) (before after : list pystr) :
  forall d log,
  convert_files str_of_value json_loads lower can_save args d log
    (before ++ after)
  = match
      convert_files str_of_value json_loads lower can_save args d log before
    with
    | Completed d' log' =>
        convert_files str_of_value json_loads lower can_save args d' log' after
    | Crashed c d' log' => Crashed c d' log'
    end.
Proof.
  induction before as [|filename rest IH]; intros d log; [reflexivity|].
  cbn [app convert_files].
  destruct (convert_file _ _ _ _ _ _ _ _); [apply IH|reflexivity].
Qed.

(** X18. A [.json] file that holds [null], a number or a boolean stops the
    whole batch: the [TypeError] leaves the loop, the disk stays as the
    files before it left it, and no file listed after it is converted. *)
Theorem scalar_file_stops_the_batch
  (args : arguments) (d d1 : disk) (log log1 : list line)
  (before after : list pystr) (filename content : pystr) (v : json) :
  convert_files str_of_value json_loads lower can_save args d log before
  = Completed d1 log1 ->
  is_json_name lower filename = true ->
  path_exists d1
    (path_join (output_docx_directory args) (docx_filename_of filename))
  && negb (overwrite args) = false ->
  read_text d1 (path_join (input_json_directory args) filename)
  = Some content ->
  nonempty (strip content) = true ->
  json_loads content = Loaded v ->
  is_scalar v = true ->
  convert_files str_of_value json_loads lower can_save args d log
    (before ++ filename :: after)
  = Crashed (Python TypeError) d1
      (log1 ++ [Processing (path_join (input_json_directory args) filename)]).
Proof.
  intros Hbefore Hname Hout Hread Htext Hload Hv.
  rewrite convert_files_app, Hbefore. cbn [convert_files].
  unfold convert_file. rewrite Hname. cbv zeta.
  rewrite Hout, Hread, Htext, Hload, scalar_raises by assumption.
  reflexivity.
Qed.

End DriverRuns.

(** ** The driver on the sample disk *)

Lemma makedirs_flat_adds_directories_only :
  adds_directories_only makedirs_flat.
Proof.
  intros d p d' H q. unfold makedirs_flat in H.
  destruct (node_at d p) as [[| | |]|] eqn:E; try discriminate;
    injection H as <-; [now left|].
  cbn [node_at]. destruct (PyStr.eqb q p) eqn:Eq; [|now left].
  apply eqb_eq in Eq. subst q. now right.
Qed.


Lemma existing_files_survive_witness :
  adds_directories_only makedirs_flat
  /\ overwrite sample_args = false
  /\ node_at sample_disk (py "out/old.docx") <> None
  /\ node_at
       (final_disk
          (run_json_to_docx_conversion no_str loads_sample ascii_lower
             makedirs_flat always_saves sample_args sample_disk))
       (py "out/old.docx")
     = node_at sample_disk (py "out/old.docx").
Proof.
  assert (Hq : node_at sample_disk (py "out/old.docx") <> None)
    by (intros H; discriminate H).
  split; [exact makedirs_flat_adds_directories_only|].
  split; [reflexivity|]. split; [exact Hq|].
  exact (existing_files_survive no_str loads_sample ascii_lower makedirs_flat
           always_saves sample_args sample_disk
           makedirs_flat_adds_directories_only eq_refl
           (py "out/old.docx") Hq).
Defined.


Lemma scalar_file_stops_the_batch_witness :
  is_json_name ascii_lower (py "null.json") = true
  /\ read_text null_disk (path_join (py "in") (py "null.json"))
     = Some (py "null")
  /\ loads_sample (py "null") = Loaded JNull
  /\ convert_files no_str loads_sample ascii_lower always_saves sample_args
       null_disk [] ([] ++ py "null.json" :: [py "report.JSON"])
     = Crashed (Python TypeError) null_disk
         ([] ++ [Processing (path_join (input_json_directory sample_args)
                               (py "null.json"))]).
Proof.
  repeat (split; [reflexivity|]).
  exact (scalar_file_stops_the_batch no_str loads_sample ascii_lower
           always_saves sample_args null_disk null_disk [] []
           [] [py "report.JSON"] (py "null.json") (py "null") JNull
           eq_refl eq_refl eq_refl eq_refl eq_refl eq_refl eq_refl).
Defined.

(** The run over the sample disk: the broken file is reported and passed
    over, the note is ignored, [old.json] is skipped for its output is
    there, and [report.JSON] is converted. *)
Example sample_run_log :
  final_log
    (run_json_to_docx_conversion no_str loads_sample ascii_lower
       makedirs_flat always_saves sample_args sample_disk)
  = [Processing (py "in/broken.json"); Said MsgDecodeError;
     Skipping (py "in/old.json") (py "out/old.docx");
     Processing (py "in/report.JSON"); Said MsgCreated; Complete].
Proof. vm_compute. reflexivity. Qed.

